(** * MaxAim: the window bootstrap of [main.cpp] and the triangle pipeline
      of [triangle.cpp]

    The program is a linear sequence of GLFW, GLEW and OpenGL calls with
    inline error reporting.  The embedding keeps that shape: every library
    call is an action of a small state monad that appends the call to the
    history of the run and returns what the driver answered.  The driver is
    a record of answers ([Driver]); theorems quantify over it. *)

From Stdlib Require Import ZArith List String Ascii Bool Arith Lia QArith.
From Stdlib Require Import Floats.SpecFloat.
Import ListNotations.
Local Open Scope Z_scope.

(** ** C character arrays and NUL-terminated strings *)

Module CStr.

Definition NUL : ascii := Ascii.zero.
Definition LF : ascii := "010"%char.

Definition is_nul (c : ascii) : bool := Ascii.eqb c NUL.

(** [buf[i] = c]; defined only for an index inside the array. *)
Definition store (buf : list ascii) (i : nat) (c : ascii) : option (list ascii) :=
  if (i <? List.length buf)%nat
  then Some (firstn i buf ++ c :: skipn (S i) buf)
  else None.

(** [buf[i] = c0; buf[i+1] = c1; ...], failing at the first store that
    falls outside the array. *)
Fixpoint store_from (buf : list ascii) (i : nat) (cs : list ascii)
  : option (list ascii) :=
  match cs with
  | [] => Some buf
  | c :: cs' =>
      match store buf i c with
      | Some buf' => store_from buf' (S i) cs'
      | None => None
      end
  end.

(** What [std::cout << p] prints for a [char*]: the characters before the
    first NUL.  An array that holds no NUL makes the read run off its
    end. *)
Fixpoint read (buf : list ascii) : option string :=
  match buf with
  | [] => None
  | c :: rest =>
      if is_nul c then Some EmptyString
      else match read rest with
           | Some s => Some (String c s)
           | None => None
           end
  end.

(** The characters of a list before its first NUL. *)
Fixpoint until_nul (cs : list ascii) : string :=
  match cs with
  | [] => EmptyString
  | c :: rest => if is_nul c then EmptyString else String c (until_nul rest)
  end.

(** [t] occurs in [s]. *)
Definition contains (s t : string) : Prop :=
  exists pre post : string, s = (pre ++ t ++ post)%string.

End CStr.

(** ** binary32 values of the [float] literals *)

Module F32.

Definition prec : Z := 24.
Definition emax : Z := 128.

Definition of_Z (n : Z) : spec_float := binary_normalize prec emax n 0 false.

(** The literal with decimal digits [m] of which [frac] stand after the
    point, rounded to nearest: [0.5f] is [lit 5 1].  (The division rounds
    once, [m] and the power of ten being exact in binary32 for the literals
    of the program.) *)
Definition lit (m : Z) (frac : nat) : spec_float :=
  SFdiv prec emax (of_Z m) (of_Z (10 ^ Z.of_nat frac)).

Definition neg (x : spec_float) : spec_float := SFopp x.

Definition leb (x y : spec_float) : bool := SFleb x y.

(** The rational a finite binary32 value stands for. *)
Definition value (x : spec_float) : option Q :=
  match x with
  | S754_zero _ => Some 0%Q
  | S754_finite s m e =>
      let q := (inject_Z (Zpos m) * Qpower 2 e)%Q in
      Some (Qred (if s then Qopp q else q))
  | _ => None
  end.

Definition sizeof_float : Z := 4.

End F32.

(** ** The library interface: calls, driver answers, and the run monad *)

Definition GLuint : Type := Z.
Definition GLint : Type := Z.
Definition GLsizei : Type := Z.

(** The header constants the two files use, kept symbolic. *)
Inductive GLenum : Type :=
| GL_ARRAY_BUFFER
| GL_STATIC_DRAW
| GL_VERTEX_SHADER
| GL_FRAGMENT_SHADER
| GL_COMPILE_STATUS
| GL_LINK_STATUS
| GL_FLOAT
| GL_TRIANGLES.

Definition GL_FALSE : bool := false.
Definition GLEW_OK : Z := 0.
Definition NULL : Z := 0.

(** One constructor per library function called in [main.cpp] or
    [triangle.cpp], carrying the arguments of the call.  Pointer arguments
    carry what they point to: the float array of [glBufferData], the source
    strings of [glShaderSource]. *)
Inductive Call : Type :=
| GlfwInit
| GlfwCreateWindow (width height : Z) (title : string) (monitor share : Z)
| GlfwMakeContextCurrent (window : Z)
| GlewInit
| GlfwWindowShouldClose (window : Z)
| GlfwSwapBuffers (window : Z)
| GlfwPollEvents
| GlfwTerminate
| GlGenBuffers (n : GLsizei)
| GlBindBuffer (target : GLenum) (buffer : GLuint)
| GlBufferData (target : GLenum) (size : Z) (data : list spec_float) (usage : GLenum)
| GlCreateShader (type : GLenum)
| GlShaderSource (shader : GLuint) (count : GLsizei) (source : list string)
| GlCompileShader (shader : GLuint)
| GlGetShaderiv (shader : GLuint) (pname : GLenum)
| GlGetShaderInfoLog (shader : GLuint) (maxLength : GLsizei)
| GlCreateProgram
| GlAttachShader (program shader : GLuint)
| GlLinkProgram (program : GLuint)
| GlGetProgramiv (program : GLuint) (pname : GLenum)
| GlGetProgramInfoLog (program : GLuint) (maxLength : GLsizei)
| GlUseProgram (program : GLuint)
| GlDeleteShader (shader : GLuint)
| GlVertexAttribPointer (index : GLuint) (size : GLint) (type : GLenum)
    (normalized : bool) (stride : GLsizei) (pointer : Z)
| GlEnableVertexAttribArray (index : GLuint)
| GlGenVertexArrays (n : GLsizei)
| GlBindVertexArray (array : GLuint)
| GlDrawArrays (mode : GLenum) (first : GLint) (count : GLsizei).

(** What the libraries and the platform answer.  Nothing is assumed about
    the answers: object names may be zero or coincide, statuses may be any
    [int]. *)
Record Driver : Type := {
  glfwInit_ret : Z;
  glfwCreateWindow_ret : Z;
  glewInit_ret : Z;
  (** answer to the [n]-th call of [glfwWindowShouldClose], from 0 *)
  glfwWindowShouldClose_ret : nat -> Z;
  glGenBuffers_name : GLuint;
  glCreateShader_name : GLenum -> GLuint;
  glCreateProgram_name : GLuint;
  glGenVertexArrays_name : GLuint;
  (** value [glGetShaderiv] leaves in its output parameter *)
  glGetShaderiv_out : GLuint -> GLenum -> GLint;
  (** value [glGetProgramiv] leaves in its output parameter *)
  glGetProgramiv_out : GLuint -> GLenum -> GLint;
  (** the information log the driver keeps for a shader or a program; a
      query for it always delivers the log, which may be empty *)
  shader_info_log : GLuint -> string;
  program_info_log : GLuint -> string;
  (** the indeterminate bytes of uninitialised automatic storage *)
  stack_byte : nat -> ascii
}.

(** The observable state of a run: the calls issued so far (oldest first),
    the two standard streams, the number of close queries answered, and the
    two globals of [triangle.cpp]. *)
Record World : Type := {
  calls : list Call;
  cout : string;
  cerr : string;
  queries : nat;
  shaderProgram : GLuint;
  VAO : GLuint
}.

(** Program start: nothing called, nothing printed, globals zero. *)
Definition start : World :=
  {| calls := []; cout := EmptyString; cerr := EmptyString; queries := 0%nat;
     shaderProgram := 0; VAO := 0 |}.

Inductive Fault : Type :=
| OutOfBounds   (** an access outside a character array *)
| OutOfFuel.    (** the frame loop is still running *)

Inductive Result (A : Type) : Type :=
| Ok (a : A) (w : World)
| Stop (f : Fault) (w : World).
Arguments Ok {A} a w.
Arguments Stop {A} f w.

Definition M (A : Type) : Type := World -> Result A.

Definition ret {A} (a : A) : M A := fun w => Ok a w.

Definition bind {A B} (m : M A) (k : A -> M B) : M B :=
  fun w => match m w with
           | Ok a w' => k a w'
           | Stop f w' => Stop f w'
           end.

Definition fail {A} (f : Fault) : M A := fun w => Stop f w.

Declare Scope run_scope.
Delimit Scope run_scope with run.
Notation "x <- m ;; k" := (bind m (fun x => k))
  (at level 61, m at next level, right associativity) : run_scope.
Notation "m ;; k" := (bind m (fun _ => k))
  (at level 61, right associativity) : run_scope.
Local Open Scope run_scope.

Definition world_of {A} (r : Result A) : World :=
  match r with Ok _ w => w | Stop _ w => w end.

(** Record the call [c]. *)
Definition call (c : Call) : M unit :=
  fun w => Ok tt {| calls := calls w ++ [c]; cout := cout w; cerr := cerr w;
                    queries := queries w;
                    shaderProgram := shaderProgram w; VAO := VAO w |}.

(** [std::cout << s]. *)
Definition cout_put (s : string) : M unit :=
  fun w => Ok tt {| calls := calls w; cout := (cout w ++ s)%string; cerr := cerr w;
                    queries := queries w;
                    shaderProgram := shaderProgram w; VAO := VAO w |}.

(** [std::cout << p] for a character array [p]. *)
Definition cout_put_chars (p : list ascii) : M unit :=
  match CStr.read p with
  | Some s => cout_put s
  | None => fail OutOfBounds
  end.

(** [std::cout << std::endl]. *)
Definition cout_endl : M unit := cout_put (String CStr.LF EmptyString).

Definition set_shaderProgram (v : GLuint) : M unit :=
  fun w => Ok tt {| calls := calls w; cout := cout w; cerr := cerr w;
                    queries := queries w;
                    shaderProgram := v; VAO := VAO w |}.

Definition set_VAO (v : GLuint) : M unit :=
  fun w => Ok tt {| calls := calls w; cout := cout w; cerr := cerr w;
                    queries := queries w;
                    shaderProgram := shaderProgram w; VAO := v |}.

Definition get_shaderProgram : M GLuint := fun w => Ok (shaderProgram w) w.
Definition get_VAO : M GLuint := fun w => Ok (VAO w) w.

(** [char a[n];] an automatic array, contents indeterminate. *)
Definition char_array (d : Driver) (n : nat) : list ascii :=
  map (stack_byte d) (seq 0 n).

Definition compile_status (d : Driver) (shader : GLuint) : GLint :=
  glGetShaderiv_out d shader GL_COMPILE_STATUS.

Definition link_status (d : Driver) (program : GLuint) : GLint :=
  glGetProgramiv_out d program GL_LINK_STATUS.

(** What [glGetShaderInfoLog] and [glGetProgramInfoLog] do to the caller's
    array for an object whose log is [log]: at most [maxLength] characters
    are written, the terminating NUL included. *)
Definition write_info_log (log : string) (maxLength : GLsizei) (infoLog : list ascii)
  : option (list ascii) :=
  if maxLength <=? 0 then Some infoLog
  else CStr.store_from infoLog 0
         (firstn (Z.to_nat (maxLength - 1)) (list_ascii_of_string log) ++ [CStr.NUL]).

Definition nl : string := String CStr.LF EmptyString.

Section Program.

Variable d : Driver.

(** *** The library functions as actions *)

Definition glfwInit : M Z :=
  call GlfwInit ;; ret (glfwInit_ret d).

Definition glfwCreateWindow (width height : Z) (title : string) (monitor share : Z) : M Z :=
  call (GlfwCreateWindow width height title monitor share) ;;
  ret (glfwCreateWindow_ret d).

Definition glfwMakeContextCurrent (window : Z) : M unit :=
  call (GlfwMakeContextCurrent window).

Definition glewInit : M Z :=
  call GlewInit ;; ret (glewInit_ret d).

Definition glfwWindowShouldClose (window : Z) : M Z :=
  fun w =>
    Ok (glfwWindowShouldClose_ret d (queries w))
       {| calls := calls w ++ [GlfwWindowShouldClose window];
          cout := cout w; cerr := cerr w;
          queries := S (queries w);
          shaderProgram := shaderProgram w; VAO := VAO w |}.

Definition glfwSwapBuffers (window : Z) : M unit := call (GlfwSwapBuffers window).
Definition glfwPollEvents : M unit := call GlfwPollEvents.
Definition glfwTerminate : M unit := call GlfwTerminate.

(** [glGenBuffers(n, &b)]: the result is the name stored in [b]. *)
Definition glGenBuffers (n : GLsizei) : M GLuint :=
  call (GlGenBuffers n) ;; ret (glGenBuffers_name d).

Definition glBindBuffer (target : GLenum) (buffer : GLuint) : M unit :=
  call (GlBindBuffer target buffer).

Definition glBufferData (target : GLenum) (size : Z) (data : list spec_float)
  (usage : GLenum) : M unit :=
  call (GlBufferData target size data usage).

Definition glCreateShader (type : GLenum) : M GLuint :=
  call (GlCreateShader type) ;; ret (glCreateShader_name d type).

Definition glShaderSource (shader : GLuint) (count : GLsizei) (source : list string)
  : M unit :=
  call (GlShaderSource shader count source).

Definition glCompileShader (shader : GLuint) : M unit := call (GlCompileShader shader).

(** [glGetShaderiv(shader, pname, &v)]: the result is the value of [v]. *)
Definition glGetShaderiv (shader : GLuint) (pname : GLenum) : M GLint :=
  call (GlGetShaderiv shader pname) ;; ret (glGetShaderiv_out d shader pname).

(** [glGetShaderInfoLog(shader, maxLength, NULL, infoLog)]: the result is
    the array after the call. *)
Definition glGetShaderInfoLog (shader : GLuint) (maxLength : GLsizei)
  (infoLog : list ascii) : M (list ascii) :=
  call (GlGetShaderInfoLog shader maxLength) ;;
  match write_info_log (shader_info_log d shader) maxLength infoLog with
  | Some infoLog' => ret infoLog'
  | None => fail OutOfBounds
  end.

Definition glCreateProgram : M GLuint :=
  call GlCreateProgram ;; ret (glCreateProgram_name d).

Definition glAttachShader (program shader : GLuint) : M unit :=
  call (GlAttachShader program shader).

Definition glLinkProgram (program : GLuint) : M unit := call (GlLinkProgram program).

Definition glGetProgramiv (program : GLuint) (pname : GLenum) : M GLint :=
  call (GlGetProgramiv program pname) ;; ret (glGetProgramiv_out d program pname).

Definition glGetProgramInfoLog (program : GLuint) (maxLength : GLsizei)
  (infoLog : list ascii) : M (list ascii) :=
  call (GlGetProgramInfoLog program maxLength) ;;
  match write_info_log (program_info_log d program) maxLength infoLog with
  | Some infoLog' => ret infoLog'
  | None => fail OutOfBounds
  end.

Definition glUseProgram (program : GLuint) : M unit := call (GlUseProgram program).
Definition glDeleteShader (shader : GLuint) : M unit := call (GlDeleteShader shader).

Definition glVertexAttribPointer (index : GLuint) (size : GLint) (type : GLenum)
  (normalized : bool) (stride : GLsizei) (pointer : Z) : M unit :=
  call (GlVertexAttribPointer index size type normalized stride pointer).

Definition glEnableVertexAttribArray (index : GLuint) : M unit :=
  call (GlEnableVertexAttribArray index).

Definition glGenVertexArrays (n : GLsizei) : M GLuint :=
  call (GlGenVertexArrays n) ;; ret (glGenVertexArrays_name d).

Definition glBindVertexArray (array : GLuint) : M unit := call (GlBindVertexArray array).

Definition glDrawArrays (mode : GLenum) (first : GLint) (count : GLsizei) : M unit :=
  call (GlDrawArrays mode first count).

(** *** main.cpp *)

(** [while (!glfwWindowShouldClose(window)) { swap; poll; }], at most
    [fuel] tests of the condition. *)
Fixpoint frame_loop (fuel : nat) (window : Z) : M unit :=
  match fuel with
  | O => fail OutOfFuel
  | S fuel' =>
      c <- glfwWindowShouldClose window ;;
      if c =? 0 then
        glfwSwapBuffers window ;;
        glfwPollEvents ;;
        frame_loop fuel' window
      else ret tt
  end.

Definition main (fuel : nat) : M Z :=
  i <- glfwInit ;;
  if i =? 0 then ret (-1)
  else
    window <- glfwCreateWindow 800 600 "Empty Window" NULL NULL ;;
    if window =? NULL then
      glfwTerminate ;;
      ret (-1)
    else
      glfwMakeContextCurrent window ;;
      e <- glewInit ;;
      if negb (e =? GLEW_OK) then
        glfwTerminate ;;
        ret (-1)
      else
        frame_loop fuel window ;;
        glfwTerminate ;;
        ret 0.

(** *** triangle.cpp *)

Definition vertexShaderSource : string :=
  ("#version 330 core" ++ nl ++
   "layout (location = 0) in vec3 aPos;" ++ nl ++
   "void main()" ++ nl ++
   "{" ++ nl ++
   "    gl_Position = vec4(aPos.x, aPos.y, aPos.z, 1.0);" ++ nl ++
   "}" ++ String CStr.NUL EmptyString)%string.

Definition fragmentShaderSource : string :=
  ("#version 330 core" ++ nl ++
   "out vec4 FragColor;" ++ nl ++
   "void main()" ++ nl ++
   "{" ++ nl ++
   "    FragColor = vec4(1.0f, 0.5f, 0.2f, 1.0f);" ++ nl ++
   "}" ++ String CStr.NUL EmptyString)%string.

(** [float vertices[] = { -0.5f, -0.5f, 0.0f,  0.5f, -0.5f, 0.0f,
                          0.0f,  0.5f, 0.0f };] *)
Definition vertices : list spec_float :=
  [ F32.neg (F32.lit 5 1); F32.neg (F32.lit 5 1); F32.lit 0 1;
    F32.lit 5 1;           F32.neg (F32.lit 5 1); F32.lit 0 1;
    F32.lit 0 1;           F32.lit 5 1;           F32.lit 0 1 ].

Definition sizeof_vertices : Z := Z.of_nat (List.length vertices) * F32.sizeof_float.

(** The body of [if(!success) { char infoLog[512]; get log; print }]. *)
Definition report (header : string)
  (get_log : GLsizei -> list ascii -> M (list ascii)) : M unit :=
  infoLog <- get_log 512 (char_array d 512) ;;
  cout_put (header ++ nl)%string ;;
  cout_put_chars infoLog ;;
  cout_endl.

Definition renderTriangleSetup : M unit :=
  VBO <- glGenBuffers 1 ;;
  glBindBuffer GL_ARRAY_BUFFER VBO ;;
  glBufferData GL_ARRAY_BUFFER sizeof_vertices vertices GL_STATIC_DRAW ;;
  vertexShader <- glCreateShader GL_VERTEX_SHADER ;;
  glShaderSource vertexShader 1 [vertexShaderSource] ;;
  glCompileShader vertexShader ;;
  success <- glGetShaderiv vertexShader GL_COMPILE_STATUS ;;
  (if success =? 0 then
     report "ERROR::SHADER::VERTEX::COMPILATION_FAILED"
            (glGetShaderInfoLog vertexShader)
   else ret tt) ;;
  fragmentShader <- glCreateShader GL_FRAGMENT_SHADER ;;
  glShaderSource fragmentShader 1 [fragmentShaderSource] ;;
  glCompileShader fragmentShader ;;
  success <- glGetShaderiv fragmentShader GL_COMPILE_STATUS ;;
  (if success =? 0 then
     report "ERROR::SHADER::FRAGMENT::COMPILATION_FAILED"
            (glGetShaderInfoLog fragmentShader)
   else ret tt) ;;
  p <- glCreateProgram ;;
  set_shaderProgram p ;;
  p <- get_shaderProgram ;; glAttachShader p vertexShader ;;
  p <- get_shaderProgram ;; glAttachShader p fragmentShader ;;
  p <- get_shaderProgram ;; glLinkProgram p ;;
  p <- get_shaderProgram ;;
  success <- glGetProgramiv p GL_LINK_STATUS ;;
  (if success =? 0 then
     p <- get_shaderProgram ;;
     report "ERROR::SHADER::PROGRAM::LINKING_FAILED"
            (glGetProgramInfoLog p)
   else ret tt) ;;
  p <- get_shaderProgram ;; glUseProgram p ;;
  glDeleteShader vertexShader ;;
  glDeleteShader fragmentShader ;;
  glVertexAttribPointer 0 3 GL_FLOAT GL_FALSE (3 * F32.sizeof_float) 0 ;;
  glEnableVertexAttribArray 0 ;;
  v <- glGenVertexArrays 1 ;;
  set_VAO v ;;
  v <- get_VAO ;; glBindVertexArray v ;;
  glBindBuffer GL_ARRAY_BUFFER VBO ;;
  glBufferData GL_ARRAY_BUFFER sizeof_vertices vertices GL_STATIC_DRAW ;;
  glVertexAttribPointer 0 3 GL_FLOAT GL_FALSE (3 * F32.sizeof_float) 0 ;;
  glEnableVertexAttribArray 0 ;;
  glBindBuffer GL_ARRAY_BUFFER 0 ;;
  glBindVertexArray 0.

Definition renderTriangle : M unit :=
  p <- get_shaderProgram ;; glUseProgram p ;;
  v <- get_VAO ;; glBindVertexArray v ;;
  glDrawArrays GL_TRIANGLES 0 3.

End Program.

(** ** Sample drivers *)

(** Everything succeeds; the window is closed after [frames] frames. *)
Definition healthy (frames : nat) : Driver :=
  {| glfwInit_ret := 1;
     glfwCreateWindow_ret := 4096;
     glewInit_ret := GLEW_OK;
     glfwWindowShouldClose_ret := fun n => if (n <? frames)%nat then 0 else 1;
     glGenBuffers_name := 1;
     glCreateShader_name :=
       fun t => match t with GL_VERTEX_SHADER => 1 | _ => 2 end;
     glCreateProgram_name := 3;
     glGenVertexArrays_name := 1;
     glGetShaderiv_out := fun _ _ => 1;
     glGetProgramiv_out := fun _ _ => 1;
     shader_info_log := fun _ => EmptyString;
     program_info_log := fun _ => EmptyString;
     stack_byte := fun _ => "x"%char |}.

(** [healthy 0] with other answers of [glfwInit], [glfwCreateWindow] and
    [glewInit]. *)
Definition answering (init window glew : Z) : Driver :=
  {| glfwInit_ret := init;
     glfwCreateWindow_ret := window;
     glewInit_ret := glew;
     glfwWindowShouldClose_ret := glfwWindowShouldClose_ret (healthy 0);
     glGenBuffers_name := glGenBuffers_name (healthy 0);
     glCreateShader_name := glCreateShader_name (healthy 0);
     glCreateProgram_name := glCreateProgram_name (healthy 0);
     glGenVertexArrays_name := glGenVertexArrays_name (healthy 0);
     glGetShaderiv_out := glGetShaderiv_out (healthy 0);
     glGetProgramiv_out := glGetProgramiv_out (healthy 0);
     shader_info_log := shader_info_log (healthy 0);
     program_info_log := program_info_log (healthy 0);
     stack_byte := stack_byte (healthy 0) |}.

(** As [healthy 1], but the driver rejects the vertex shader. *)
Definition vertex_rejected : Driver :=
  {| glfwInit_ret := 1;
     glfwCreateWindow_ret := 4096;
     glewInit_ret := GLEW_OK;
     glfwWindowShouldClose_ret := fun n => if (n <? 1)%nat then 0 else 1;
     glGenBuffers_name := 1;
     glCreateShader_name :=
       fun t => match t with GL_VERTEX_SHADER => 1 | _ => 2 end;
     glCreateProgram_name := 3;
     glGenVertexArrays_name := 1;
     glGetShaderiv_out := fun s _ => if s =? 1 then 0 else 1;
     glGetProgramiv_out := fun _ _ => 1;
     shader_info_log := fun _ => "0:5(1): error: syntax error"%string;
     program_info_log := fun _ => EmptyString;
     stack_byte := fun _ => "x"%char |}.

(** ** Vocabulary of the statements *)

(** The text that reaches the stream when a driver log goes through
    [char infoLog[512]] with [maxLength = 512]. *)
Definition log_text (log : string) : string :=
  CStr.until_nul (firstn 511 (list_ascii_of_string log)).

(** [w] after the calls [cs] and the standard-output text [out]. *)
Definition extend (w : World) (cs : list Call) (out : string) : World :=
  {| calls := calls w ++ cs; cout := (cout w ++ out)%string; cerr := cerr w;
     queries := queries w; shaderProgram := shaderProgram w; VAO := VAO w |}.

Definition with_globals (w : World) (p v : GLuint) : World :=
  {| calls := calls w; cout := cout w; cerr := cerr w;
     queries := queries w; shaderProgram := p; VAO := v |}.

(** [!success] *)
Definition failed (success : GLint) : bool := success =? 0.

Section SetupTrace.

Variable d : Driver.

Let VBO := glGenBuffers_name d.
Let vertexShader := glCreateShader_name d GL_VERTEX_SHADER.
Let fragmentShader := glCreateShader_name d GL_FRAGMENT_SHADER.
Let program := glCreateProgram_name d.
Let vao := glGenVertexArrays_name d.

(** The calls of [renderTriangleSetup] in order: three straight stretches
    and, between them, the log query of each failed check. *)
Definition upload_calls : list Call :=
  [ GlGenBuffers 1;
    GlBindBuffer GL_ARRAY_BUFFER VBO;
    GlBufferData GL_ARRAY_BUFFER 36 vertices GL_STATIC_DRAW ].

Definition vertex_calls : list Call :=
  [ GlCreateShader GL_VERTEX_SHADER;
    GlShaderSource vertexShader 1 [vertexShaderSource];
    GlCompileShader vertexShader;
    GlGetShaderiv vertexShader GL_COMPILE_STATUS ].

Definition fragment_calls : list Call :=
  [ GlCreateShader GL_FRAGMENT_SHADER;
    GlShaderSource fragmentShader 1 [fragmentShaderSource];
    GlCompileShader fragmentShader;
    GlGetShaderiv fragmentShader GL_COMPILE_STATUS ].

Definition link_calls : list Call :=
  [ GlCreateProgram;
    GlAttachShader program vertexShader;
    GlAttachShader program fragmentShader;
    GlLinkProgram program;
    GlGetProgramiv program GL_LINK_STATUS ].

Definition use_and_delete_calls : list Call :=
  [ GlUseProgram program;
    GlDeleteShader vertexShader;
    GlDeleteShader fragmentShader ].

Definition layout_calls : list Call :=
  [ GlVertexAttribPointer 0 3 GL_FLOAT false 12 0;
    GlEnableVertexAttribArray 0;
    GlGenVertexArrays 1;
    GlBindVertexArray vao;
    GlBindBuffer GL_ARRAY_BUFFER VBO;
    GlBufferData GL_ARRAY_BUFFER 36 vertices GL_STATIC_DRAW;
    GlVertexAttribPointer 0 3 GL_FLOAT false 12 0;
    GlEnableVertexAttribArray 0;
    GlBindBuffer GL_ARRAY_BUFFER 0;
    GlBindVertexArray 0 ].

Definition when_failed {A} (success : GLint) (x : list A) : list A :=
  if failed success then x else [].

Definition setup_calls : list Call :=
  upload_calls
  ++ vertex_calls
  ++ when_failed (compile_status d vertexShader) [GlGetShaderInfoLog vertexShader 512]
  ++ fragment_calls
  ++ when_failed (compile_status d fragmentShader) [GlGetShaderInfoLog fragmentShader 512]
  ++ link_calls
  ++ when_failed (link_status d program) [GlGetProgramInfoLog program 512]
  ++ use_and_delete_calls
  ++ layout_calls.

(** What one failed check prints. *)
Definition block (header log : string) : string :=
  (header ++ nl ++ log_text log ++ nl)%string.

Definition block_if_failed (success : GLint) (header log : string) : string :=
  if failed success then block header log else EmptyString.

Definition setup_cout : string :=
  (block_if_failed (compile_status d vertexShader)
     "ERROR::SHADER::VERTEX::COMPILATION_FAILED" (shader_info_log d vertexShader)
   ++ block_if_failed (compile_status d fragmentShader)
     "ERROR::SHADER::FRAGMENT::COMPILATION_FAILED" (shader_info_log d fragmentShader)
   ++ block_if_failed (link_status d program)
     "ERROR::SHADER::PROGRAM::LINKING_FAILED" (program_info_log d program))%string.

End SetupTrace.

(** [w] after the calls [cs], [n] of them close queries. *)
Definition advance (w : World) (cs : list Call) (n : nat) : World :=
  {| calls := calls w ++ cs; cout := cout w; cerr := cerr w;
     queries := (queries w + n)%nat;
     shaderProgram := shaderProgram w; VAO := VAO w |}.

(** One turn of the frame loop: the test of the condition and the body. *)
Definition frame (window : Z) : list Call :=
  [GlfwWindowShouldClose window; GlfwSwapBuffers window; GlfwPollEvents].

Definition frames (window : Z) (n : nat) : list Call :=
  List.concat (repeat (frame window) n).

(** The close query number [from + n] is the first one answered non-zero,
    and it is among the next [fuel] queries. *)
Fixpoint frames_until_close (d : Driver) (from fuel : nat) : option nat :=
  match fuel with
  | O => None
  | S fuel' =>
      if glfwWindowShouldClose_ret d from =? 0
      then option_map S (frames_until_close d (S from) fuel')
      else Some O
  end.

Definition init_calls : list Call := [GlfwInit].

Definition window_calls : list Call :=
  [GlfwInit; GlfwCreateWindow 800 600 "Empty Window" NULL NULL].

Definition context_calls (window : Z) : list Call :=
  window_calls ++ [GlfwMakeContextCurrent window; GlewInit].

(** *** Kinds of calls *)

Definition is_draw (c : Call) : bool :=
  match c with GlDrawArrays _ _ _ => true | _ => false end.

Definition is_use_program (c : Call) : bool :=
  match c with GlUseProgram _ => true | _ => false end.

Definition is_bind_vertex_array (c : Call) : bool :=
  match c with GlBindVertexArray _ => true | _ => false end.

Definition is_create_program (c : Call) : bool :=
  match c with GlCreateProgram => true | _ => false end.

Definition is_gen_vertex_arrays (c : Call) : bool :=
  match c with GlGenVertexArrays _ => true | _ => false end.

Definition is_delete (c : Call) : bool :=
  match c with GlDeleteShader _ => true | _ => false end.

Definition is_buffer_data (c : Call) : bool :=
  match c with GlBufferData _ _ _ _ => true | _ => false end.

Definition is_attrib_pointer (c : Call) : bool :=
  match c with GlVertexAttribPointer _ _ _ _ _ _ => true | _ => false end.

Definition is_info_log_query (c : Call) : bool :=
  match c with
  | GlGetShaderInfoLog _ _ | GlGetProgramInfoLog _ _ => true
  | _ => false
  end.

(** Calls that create, build, query, activate or delete a shader stage or
    a program. *)
Definition is_shader_pipeline (c : Call) : bool :=
  match c with
  | GlCreateShader _ | GlShaderSource _ _ _ | GlCompileShader _
  | GlGetShaderiv _ _ | GlGetShaderInfoLog _ _
  | GlCreateProgram | GlAttachShader _ _ | GlLinkProgram _
  | GlGetProgramiv _ _ | GlGetProgramInfoLog _ _
  | GlUseProgram _ | GlDeleteShader _ => true
  | _ => false
  end.

(** Calls into GLFW and GLEW, the only libraries [main.cpp] talks to. *)
Definition is_windowing (c : Call) : bool :=
  match c with
  | GlfwInit | GlfwCreateWindow _ _ _ _ _ | GlfwMakeContextCurrent _
  | GlewInit | GlfwWindowShouldClose _ | GlfwSwapBuffers _
  | GlfwPollEvents | GlfwTerminate => true
  | _ => false
  end.

Definition count (p : Call -> bool) (l : list Call) : nat :=
  List.length (filter p l).

(** *** Properties of runs *)

(** The frame loop as the specification describes it: whenever a frame is
    presented, the three calls just before are the activation of the
    program, the activation of the geometry descriptor, and one draw of
    3 vertices as triangles. *)
Definition draws_before_presenting (l : list Call) : Prop :=
  forall pre window post,
    l = pre ++ GlfwSwapBuffers window :: post ->
    exists pre' program array,
      pre = pre' ++ [GlUseProgram program; GlBindVertexArray array;
                     GlDrawArrays GL_TRIANGLES 0 3].

(** The calls of a run create exactly one program and exactly one vertex
    array. *)
Definition one_program_one_descriptor (l : list Call) : Prop :=
  count is_create_program l = 1%nat /\ count is_gen_vertex_arrays l = 1%nat.

(** The three setup steps of [main] succeeded. *)
Definition setup_ok (d : Driver) : Prop :=
  glfwInit_ret d <> 0 /\ glfwCreateWindow_ret d <> NULL /\ glewInit_ret d = GLEW_OK.

(** The window-close signal arrives after [n] frames: the close query is
    answered zero [n] times and non-zero the next time. *)
Definition closes_after (d : Driver) (n : nat) : Prop :=
  (forall i, (i < n)%nat -> glfwWindowShouldClose_ret d i = 0)
  /\ glfwWindowShouldClose_ret d n <> 0.

(** The setup with the three [if(!success)] bodies left out. *)
Definition straight_line (d : Driver) : list Call :=
  upload_calls d ++ vertex_calls d ++ fragment_calls d ++ link_calls d
  ++ use_and_delete_calls d ++ layout_calls d.

(** A log without NUL characters, as a driver's C string is. *)
Definition nul_free (log : string) : bool :=
  forallb (fun c => negb (CStr.is_nul c)) (list_ascii_of_string log).

(** The block of the specification, [ERROR::SHADER::<STAGE>::<REASON>], a
    newline, the log, and the newline of [std::endl]. *)
Definition spec_block (stage reason log : string) : string :=
  ("ERROR::SHADER::" ++ stage ++ "::" ++ reason ++ nl ++ log ++ nl)%string.

(** The components of vertex [i] of an array read with [size] floats per
    vertex, [stride] bytes from one vertex to the next, starting [offset]
    bytes into the array. *)
Definition fetch (data : list spec_float) (size : GLint) (stride : GLsizei)
  (offset : Z) (i : Z) : list spec_float :=
  firstn (Z.to_nat size)
    (skipn (Z.to_nat ((offset + i * stride) / F32.sizeof_float)) data).

Definition in_ndc (x : spec_float) : bool :=
  F32.leb (F32.neg (F32.of_Z 1)) x && F32.leb x (F32.of_Z 1).

(** *** Windows, frames and bounds of [main] *)

(** The window a GLFW call is applied to. *)
Definition window_of (c : Call) : option Z :=
  match c with
  | GlfwMakeContextCurrent window
  | GlfwWindowShouldClose window
  | GlfwSwapBuffers window => Some window
  | _ => None
  end.

(** [c] is applied to the window [window], or to no window. *)
Definition on_window (window : Z) (c : Call) : bool :=
  match window_of c with
  | Some x => x =? window
  | None => true
  end.

Definition is_present (c : Call) : bool :=
  match c with GlfwSwapBuffers _ => true | _ => false end.

Definition is_poll (c : Call) : bool :=
  match c with GlfwPollEvents => true | _ => false end.

Definition is_close_test (c : Call) : bool :=
  match c with GlfwWindowShouldClose _ => true | _ => false end.

Definition is_terminate (c : Call) : bool :=
  match c with GlfwTerminate => true | _ => false end.

(** *** Drivers that differ outside the OpenGL answers *)



(** *** The bindings of the OpenGL context *)

(** The three bindings the two functions of [triangle.cpp] change: the
    buffer bound to [GL_ARRAY_BUFFER], the bound vertex array, and the
    program in use. *)
Record Bindings : Type := {
  bound_buffer : GLuint;
  bound_array : GLuint;
  used_program : GLuint
}.

(** The effect of one call on the bindings: a bind or use call replaces
    the binding it names, every other call leaves all three alone. *)
Definition bind_step (b : Bindings) (c : Call) : Bindings :=
  match c with
  | GlBindBuffer GL_ARRAY_BUFFER buffer =>
      {| bound_buffer := buffer; bound_array := bound_array b;
         used_program := used_program b |}
  | GlBindVertexArray array =>
      {| bound_buffer := bound_buffer b; bound_array := array;
         used_program := used_program b |}
  | GlUseProgram program =>
      {| bound_buffer := bound_buffer b; bound_array := bound_array b;
         used_program := program |}
  | _ => b
  end.


(** The bindings in force at each call of [l] selected by [p], in order. *)
Fixpoint bindings_at (p : Call -> bool) (b : Bindings) (l : list Call)
  : list Bindings :=
  match l with
  | [] => []
  | c :: l' => (if p c then [b] else []) ++ bindings_at p (bind_step b c) l'
  end.

Definition is_enable_attrib (c : Call) : bool :=
  match c with GlEnableVertexAttribArray _ => true | _ => false end.



(** * Properties *)

(** ** Character arrays: stores, reads and the info-log copy *)

Lemma string_app_assoc (a b c : string) :
  ((a ++ b) ++ c)%string = (a ++ (b ++ c))%string.
Proof.
  induction a as [|x a IH]; simpl; [reflexivity | now rewrite IH].
Qed.

Lemma string_app_nil_r (a : string) : (a ++ EmptyString)%string = a.
Proof.
  induction a as [|x a IH]; simpl; [reflexivity | now rewrite IH].
Qed.

Lemma store_length (buf buf' : list ascii) (i : nat) (c : ascii) :
  CStr.store buf i c = Some buf' -> List.length buf' = List.length buf.
Proof.
  unfold CStr.store. destruct (Nat.ltb_spec i (List.length buf)) as [Hi|Hi];
    [|discriminate].
  intros [= <-]. rewrite length_app, length_firstn. cbn [List.length].
  change (match buf with [] => [] | _ :: l => skipn i l end) with (skipn (S i) buf).
  rewrite length_skipn. lia.
Qed.

(** Stores that stay inside the array succeed and overwrite exactly the
    cells [i .. i + |cs| - 1]. *)
Lemma store_from_inside (cs buf : list ascii) (i : nat) :
  (i + List.length cs <= List.length buf)%nat ->
  CStr.store_from buf i cs
  = Some (firstn i buf ++ cs ++ skipn (i + List.length cs) buf).
Proof.
  revert buf i. induction cs as [|c cs IH]; intros buf i Hle; simpl in *.
  - rewrite Nat.add_0_r, firstn_skipn. reflexivity.
  - unfold CStr.store.
    destruct (Nat.ltb_spec i (List.length buf)) as [Hi|Hi]; [|lia].
    rewrite IH.
    + f_equal.
      rewrite firstn_app, firstn_firstn, length_firstn.
      rewrite Nat.min_r by lia. rewrite Nat.min_l by lia.
      replace (S i - i)%nat with 1%nat by lia. cbn [firstn].
      rewrite <- app_assoc. cbn [app]. do 3 f_equal.
      rewrite skipn_app, length_firstn, Nat.min_l by lia.
      rewrite (skipn_all2 (firstn i buf)) by (rewrite length_firstn; lia).
      replace (S i + List.length cs - i)%nat with (S (List.length cs)) by lia.
      cbn [app]. rewrite skipn_cons, skipn_skipn. f_equal. lia.
    + rewrite length_app, length_firstn. cbn [List.length].
      rewrite length_skipn. lia.
Qed.

(** A store sequence that does not fit is refused: the model sees an
    overflow when there is one. *)
Lemma store_from_outside (cs buf : list ascii) (i : nat) :
  (i <= List.length buf < i + List.length cs)%nat ->
  CStr.store_from buf i cs = None.
Proof.
  revert buf i. induction cs as [|c cs IH]; intros buf i Hlt; simpl in *.
  - lia.
  - destruct (CStr.store buf i c) as [buf'|] eqn:E; [|reflexivity].
    apply IH. pose proof (store_length _ _ _ _ E) as Hlen.
    unfold CStr.store in E.
    destruct (Nat.ltb_spec i (List.length buf)); [lia | discriminate].
Qed.

Lemma read_terminated (cs rest : list ascii) :
  CStr.read (cs ++ CStr.NUL :: rest) = Some (CStr.until_nul cs).
Proof.
  induction cs as [|c cs IH]; simpl.
  - reflexivity.
  - destruct (CStr.is_nul c); [reflexivity | now rewrite IH].
Qed.

Lemma until_nul_length (cs : list ascii) :
  (String.length (CStr.until_nul cs) <= List.length cs)%nat.
Proof.
  induction cs as [|c cs IH]; simpl; [lia|].
  destruct (CStr.is_nul c); simpl; lia.
Qed.

Lemma until_nul_clean (cs : list ascii) :
  forallb (fun c => negb (CStr.is_nul c)) cs = true ->
  CStr.until_nul cs = string_of_list_ascii cs.
Proof.
  induction cs as [|c cs IH]; simpl; [reflexivity|].
  destruct (CStr.is_nul c); simpl; [discriminate|].
  intros H. now rewrite IH.
Qed.

Lemma char_array_length (d : Driver) (n : nat) : List.length (char_array d n) = n.
Proof. unfold char_array. now rewrite length_map, length_seq. Qed.

Lemma list_ascii_length (s : string) :
  List.length (list_ascii_of_string s) = String.length s.
Proof. induction s as [|c s IH]; simpl; [reflexivity | now rewrite IH]. Qed.

(** The copy made by the info-log queries stays inside an array that has
    room for [maxLength] characters. *)
Lemma write_info_log_fits (log : string) (maxLength : GLsizei) (buf : list ascii) :
  0 < maxLength ->
  (Z.to_nat maxLength <= List.length buf)%nat ->
  let text := firstn (Z.to_nat (maxLength - 1)) (list_ascii_of_string log) in
  write_info_log log maxLength buf
  = Some (text ++ CStr.NUL :: skipn (S (List.length text)) buf).
Proof.
  intros Hpos Hroom text. unfold write_info_log.
  destruct (Z.leb_spec maxLength 0) as [H|_]; [lia|].
  fold text.
  assert (Htext : (List.length text <= Z.to_nat (maxLength - 1))%nat).
  { unfold text. rewrite length_firstn. lia. }
  rewrite store_from_inside.
  - cbn [firstn app]. rewrite <- app_assoc. cbn [app]. repeat f_equal.
    rewrite length_app. cbn [List.length]. lia.
  - rewrite length_app. cbn [List.length]. lia.
Qed.

(** An array shorter than [maxLength] is overrun by a log that fills it. *)
Lemma write_info_log_overruns (log : string) (maxLength : GLsizei) (buf : list ascii) :
  (List.length buf < Z.to_nat maxLength)%nat ->
  (List.length buf <= String.length log)%nat ->
  write_info_log log maxLength buf = None.
Proof.
  intros Hshort Hlong. unfold write_info_log.
  destruct (Z.leb_spec maxLength 0) as [H|_]; [lia|].
  apply store_from_outside.
  rewrite length_app, length_firstn, list_ascii_length. cbn [List.length]. lia.
Qed.

Lemma info_log_512 (d : Driver) (log : string) :
  exists infoLog,
    write_info_log log 512 (char_array d 512) = Some infoLog /\
    List.length infoLog = 512%nat /\
    CStr.read infoLog = Some (log_text log).
Proof.
  eexists. split; [|split].
  - apply write_info_log_fits; [lia|]. rewrite char_array_length. lia.
  - change (Z.to_nat (512 - 1)) with 511%nat.
    rewrite length_app. cbn [List.length]. rewrite length_skipn, char_array_length.
    rewrite length_firstn. lia.
  - change (Z.to_nat (512 - 1)) with 511%nat. apply read_terminated.
Qed.

Lemma log_text_length (log : string) : (String.length (log_text log) <= 511)%nat.
Proof.
  unfold log_text.
  pose proof (until_nul_length (firstn 511 (list_ascii_of_string log))) as H.
  rewrite length_firstn in H. lia.
Qed.

(** With [maxLength] one larger than the array, a log of 600 characters
    overruns it. *)
Example overrun_is_seen :
  write_info_log (string_of_list_ascii (repeat "a"%char 600)) 513
    (char_array (healthy 0) 512) = None.
Proof. vm_compute. reflexivity. Qed.

Example literal_half : F32.lit 5 1 = S754_finite false 8388608 (-24).
Proof. vm_compute. reflexivity. Qed.

(** A log of 600 characters comes out as its first 511. *)
Example long_log_cut :
  log_text (string_of_list_ascii (repeat "a"%char 600))
  = string_of_list_ascii (repeat "a"%char 511).
Proof. vm_compute. reflexivity. Qed.

(** ** Running the setup *)

Lemma report_shader_run (d : Driver) (header : string) (shader : GLuint) (w : World) :
  report d header (glGetShaderInfoLog d shader) w
  = Ok tt (extend w [GlGetShaderInfoLog shader 512]
             (header ++ nl ++ log_text (shader_info_log d shader) ++ nl)).
Proof.
  destruct (info_log_512 d (shader_info_log d shader)) as (buf & Hw & _ & Hr).
  unfold report, glGetShaderInfoLog, bind, call. rewrite Hw.
  unfold ret, cout_put_chars. rewrite Hr.
  unfold cout_endl, cout_put, extend, nl; cbn [calls cout cerr queries shaderProgram VAO].
  now rewrite !string_app_assoc.
Qed.

Lemma report_program_run (d : Driver) (header : string) (program : GLuint) (w : World) :
  report d header (glGetProgramInfoLog d program) w
  = Ok tt (extend w [GlGetProgramInfoLog program 512]
             (header ++ nl ++ log_text (program_info_log d program) ++ nl)).
Proof.
  destruct (info_log_512 d (program_info_log d program)) as (buf & Hw & _ & Hr).
  unfold report, glGetProgramInfoLog, bind, call. rewrite Hw.
  unfold ret, cout_put_chars. rewrite Hr.
  unfold cout_endl, cout_put, extend, nl; cbn [calls cout cerr queries shaderProgram VAO].
  now rewrite !string_app_assoc.
Qed.

(** Case analysis on what the three status checks of the setup find. *)
Ltac by_checks d :=
  destruct (failed (compile_status d (glCreateShader_name d GL_VERTEX_SHADER)));
  destruct (failed (compile_status d (glCreateShader_name d GL_FRAGMENT_SHADER)));
  destruct (failed (link_status d (glCreateProgram_name d))).

(** The setup always runs to its last line, and this is the world it leaves. *)
Lemma renderTriangleSetup_run (d : Driver) (w : World) :
  renderTriangleSetup d w
  = Ok tt (with_globals (extend w (setup_calls d) (setup_cout d))
             (glCreateProgram_name d) (glGenVertexArrays_name d)).
Proof.
  unfold renderTriangleSetup.
  cbv beta iota delta
    [bind ret call glGenBuffers glBindBuffer glBufferData glCreateShader
     glShaderSource glCompileShader glGetShaderiv glCreateProgram
     glAttachShader glLinkProgram glGetProgramiv glUseProgram glDeleteShader
     glVertexAttribPointer glEnableVertexAttribArray glGenVertexArrays
     glBindVertexArray set_shaderProgram get_shaderProgram set_VAO get_VAO
     calls cout cerr queries shaderProgram VAO].
  unfold setup_calls, setup_cout, when_failed, block_if_failed, failed,
    compile_status, link_status, block.
  destruct (glGetShaderiv_out d (glCreateShader_name d GL_VERTEX_SHADER)
              GL_COMPILE_STATUS =? 0);
    [rewrite report_shader_run|];
    (destruct (glGetShaderiv_out d (glCreateShader_name d GL_FRAGMENT_SHADER)
                 GL_COMPILE_STATUS =? 0);
     [rewrite report_shader_run|]);
    (destruct (glGetProgramiv_out d (glCreateProgram_name d) GL_LINK_STATUS =? 0);
     [rewrite report_program_run|]);
    unfold extend, with_globals;
    cbn [calls cout cerr queries shaderProgram VAO];
    f_equal; f_equal;
    repeat rewrite <- app_assoc; cbn [app];
    repeat rewrite string_app_assoc; cbn [append];
    repeat rewrite string_app_nil_r; reflexivity.
Qed.

(** ** Running [main] *)

Lemma frames_succ (window : Z) (n : nat) :
  frames window (S n) = frame window ++ frames window n.
Proof. reflexivity. Qed.

Lemma frame_loop_run (d : Driver) (fuel : nat) (window : Z) (w : World) :
  frame_loop d fuel window w
  = match frames_until_close d (queries w) fuel with
    | Some n =>
        Ok tt (advance w (frames window n ++ [GlfwWindowShouldClose window]) (S n))
    | None => Stop OutOfFuel (advance w (frames window fuel) fuel)
    end.
Proof.
  revert w. induction fuel as [|fuel IH]; intros w.
  - cbn. unfold advance. now rewrite app_nil_r, Nat.add_0_r; destruct w.
  - cbn [frame_loop frames_until_close].
    unfold bind at 1. unfold glfwWindowShouldClose at 1.
    destruct (glfwWindowShouldClose_ret d (queries w) =? 0).
    + unfold bind, glfwSwapBuffers, glfwPollEvents, call. rewrite IH.
      cbn [queries calls cout cerr shaderProgram VAO].
      destruct (frames_until_close d (S (queries w)) fuel) as [n|];
        cbn [option_map]; unfold advance;
        cbn [queries calls cout cerr shaderProgram VAO];
        rewrite frames_succ; unfold frame;
        repeat rewrite <- app_assoc; cbn [app];
        do 2 f_equal; lia.
    + unfold ret, advance. cbn [frames repeat List.concat app]. do 2 f_equal. lia.
Qed.

Lemma frames_until_close_spec (d : Driver) (from fuel n : nat) :
  frames_until_close d from fuel = Some n <->
  (n < fuel)%nat /\
  (forall i, (i < n)%nat -> glfwWindowShouldClose_ret d (from + i) = 0) /\
  glfwWindowShouldClose_ret d (from + n) <> 0.
Proof.
  revert from n. induction fuel as [|fuel IH]; intros from n; cbn.
  - split; [discriminate | lia].
  - destruct (Z.eqb_spec (glfwWindowShouldClose_ret d from) 0) as [E|E].
    + destruct (frames_until_close d (S from) fuel) as [m|] eqn:F; cbn.
      * split.
        -- intros [= <-]. apply IH in F. destruct F as (Hm & Hz & Hnz).
           split; [lia|]. split.
           ++ intros [|i] Hi; [now rewrite Nat.add_0_r|].
              replace (from + S i)%nat with (S from + i)%nat by lia.
              apply Hz; lia.
           ++ now replace (from + S m)%nat with (S from + m)%nat by lia.
        -- intros (Hn & Hz & Hnz). destruct n as [|n].
           ++ rewrite Nat.add_0_r in Hnz. contradiction.
           ++ f_equal. assert (G : frames_until_close d (S from) fuel = Some n).
              { apply IH. split; [lia|]. split.
                - intros i Hi.
                  replace (S from + i)%nat with (from + S i)%nat by lia.
                  apply Hz; lia.
                - now replace (S from + n)%nat with (from + S n)%nat by lia. }
              congruence.
      * split; [discriminate|]. intros (Hn & Hz & Hnz). destruct n as [|n].
        -- rewrite Nat.add_0_r in Hnz. contradiction.
        -- assert (G : frames_until_close d (S from) fuel = Some n).
           { apply IH. split; [lia|]. split.
             - intros i Hi.
               replace (S from + i)%nat with (from + S i)%nat by lia.
               apply Hz; lia.
             - now replace (S from + n)%nat with (from + S n)%nat by lia. }
           congruence.
    + split.
      * intros [= <-]. split; [lia|]. split; [lia|]. now rewrite Nat.add_0_r.
      * intros (Hn & Hz & Hnz). destruct n as [|n]; [reflexivity|].
        specialize (Hz 0%nat ltac:(lia)). rewrite Nat.add_0_r in Hz. contradiction.
Qed.

(** [main] from any world, case by case as the source branches. *)
Lemma main_run (d : Driver) (fuel : nat) (w : World) :
  main d fuel w
  = if glfwInit_ret d =? 0 then Ok (-1) (advance w init_calls 0)
    else if glfwCreateWindow_ret d =? NULL
    then Ok (-1) (advance w (window_calls ++ [GlfwTerminate]) 0)
    else if negb (glewInit_ret d =? GLEW_OK)
    then Ok (-1) (advance w (context_calls (glfwCreateWindow_ret d) ++ [GlfwTerminate]) 0)
    else match frames_until_close d (queries w) fuel with
         | Some n =>
             Ok 0 (advance w (context_calls (glfwCreateWindow_ret d)
                              ++ frames (glfwCreateWindow_ret d) n
                              ++ [GlfwWindowShouldClose (glfwCreateWindow_ret d);
                                  GlfwTerminate]) (S n))
         | None =>
             Stop OutOfFuel
               (advance w (context_calls (glfwCreateWindow_ret d)
                           ++ frames (glfwCreateWindow_ret d) fuel) fuel)
         end.
Proof.
  unfold main, bind at 1, glfwInit, bind at 1, call, ret.
  destruct (glfwInit_ret d =? 0).
  { unfold advance, init_calls; cbn [calls cout cerr queries shaderProgram VAO].
    now rewrite Nat.add_0_r. }
  unfold bind at 1, glfwCreateWindow, bind at 1, call, ret.
  destruct (glfwCreateWindow_ret d =? NULL).
  { unfold bind, glfwTerminate, call, advance, window_calls;
      cbn [calls cout cerr queries shaderProgram VAO].
    rewrite Nat.add_0_r. repeat rewrite <- app_assoc. reflexivity. }
  unfold bind at 1, glfwMakeContextCurrent, call.
  unfold bind at 1, glewInit, bind at 1, call, ret.
  destruct (negb (glewInit_ret d =? GLEW_OK)).
  { unfold bind, glfwTerminate, call, advance, context_calls, window_calls;
      cbn [calls cout cerr queries shaderProgram VAO].
    rewrite Nat.add_0_r. repeat rewrite <- app_assoc. reflexivity. }
  unfold bind at 1. rewrite frame_loop_run.
  cbn [calls cout cerr queries shaderProgram VAO].
  destruct (frames_until_close d (queries w) fuel) as [n|].
  - unfold bind, glfwTerminate, call, ret, advance, context_calls, window_calls;
      cbn [calls cout cerr queries shaderProgram VAO].
    repeat rewrite <- app_assoc. reflexivity.
  - unfold advance, context_calls, window_calls;
      cbn [calls cout cerr queries shaderProgram VAO].
    repeat rewrite <- app_assoc. reflexivity.
Qed.

(** Case analysis on the three setup checks of [main]. *)
Ltac by_setup d :=
  destruct (Z.eqb_spec (glfwInit_ret d) 0);
  [| destruct (Z.eqb_spec (glfwCreateWindow_ret d) NULL);
     [| destruct (Z.eqb_spec (glewInit_ret d) GLEW_OK); cbn [negb] in * ]].

(** Once the setup of [main] has succeeded, the run is the frame loop and
    the final [glfwTerminate]. *)
Lemma main_after_setup (d : Driver) (fuel : nat) (w : World) :
  setup_ok d ->
  main d fuel w
  = match frames_until_close d (queries w) fuel with
    | Some n =>
        Ok 0 (advance w (context_calls (glfwCreateWindow_ret d)
                         ++ frames (glfwCreateWindow_ret d) n
                         ++ [GlfwWindowShouldClose (glfwCreateWindow_ret d);
                             GlfwTerminate]) (S n))
    | None =>
        Stop OutOfFuel
          (advance w (context_calls (glfwCreateWindow_ret d)
                      ++ frames (glfwCreateWindow_ret d) fuel) fuel)
    end.
Proof.
  intros (H1 & H2 & H3). rewrite main_run. by_setup d; easy.
Qed.

Lemma first_close_from_start (d : Driver) (fuel n : nat) :
  frames_until_close d 0 fuel = Some n <-> (n < fuel)%nat /\ closes_after d n.
Proof.
  rewrite frames_until_close_spec. unfold closes_after. cbn. tauto.
Qed.

(** The branches of [main] on sample drivers. *)
Example main_without_glfw :
  main (answering 0 4096 GLEW_OK) 5 start = Ok (-1) (advance start [GlfwInit] 0).
Proof. reflexivity. Qed.

Example main_without_window :
  main (answering 1 NULL GLEW_OK) 5 start
  = Ok (-1) (advance start
               [GlfwInit; GlfwCreateWindow 800 600 "Empty Window" 0 0;
                GlfwTerminate] 0).
Proof. reflexivity. Qed.

Example main_without_glew :
  main (answering 1 4096 1) 5 start
  = Ok (-1) (advance start
               [GlfwInit; GlfwCreateWindow 800 600 "Empty Window" 0 0;
                GlfwMakeContextCurrent 4096; GlewInit; GlfwTerminate] 0).
Proof. reflexivity. Qed.

Example main_two_frames :
  main (healthy 2) 3 start
  = Ok 0 (advance start
            [GlfwInit; GlfwCreateWindow 800 600 "Empty Window" 0 0;
             GlfwMakeContextCurrent 4096; GlewInit;
             GlfwWindowShouldClose 4096; GlfwSwapBuffers 4096; GlfwPollEvents;
             GlfwWindowShouldClose 4096; GlfwSwapBuffers 4096; GlfwPollEvents;
             GlfwWindowShouldClose 4096; GlfwTerminate] 3).
Proof. reflexivity. Qed.

Example main_still_in_loop :
  main (healthy 2) 1 start
  = Stop OutOfFuel
      (advance start
         [GlfwInit; GlfwCreateWindow 800 600 "Empty Window" 0 0;
          GlfwMakeContextCurrent 4096; GlewInit;
          GlfwWindowShouldClose 4096; GlfwSwapBuffers 4096; GlfwPollEvents] 1).
Proof. reflexivity. Qed.

(** ** Counting calls *)

Lemma count_app (p : Call -> bool) (l l' : list Call) :
  count p (l ++ l') = (count p l + count p l')%nat.
Proof. unfold count. now rewrite filter_app, length_app. Qed.

Lemma count_none (p q : Call -> bool) (l : list Call) :
  (forall c, q c = true -> p c = false) ->
  forallb q l = true -> count p l = 0%nat.
Proof.
  intros Hpq. unfold count. induction l as [|c l IH]; cbn; [reflexivity|].
  intros H. apply andb_true_iff in H as [Hc Hl].
  rewrite (Hpq _ Hc). now apply IH.
Qed.

Lemma frames_windowing (window : Z) (n : nat) :
  forallb is_windowing (frames window n) = true.
Proof.
  induction n as [|n IH]; [reflexivity|].
  rewrite frames_succ, forallb_app, IH. reflexivity.
Qed.

(** Whatever the driver answers, [main] adds only GLFW and GLEW calls. *)
Lemma main_calls_windowing (d : Driver) (fuel : nat) (w : World) :
  exists l,
    calls (world_of (main d fuel w)) = calls w ++ l /\
    forallb is_windowing l = true.
Proof.
  rewrite main_run.
  destruct (glfwInit_ret d =? 0); [eexists; split; [reflexivity|reflexivity]|].
  destruct (glfwCreateWindow_ret d =? NULL);
    [eexists; split; [reflexivity|reflexivity]|].
  destruct (negb (glewInit_ret d =? GLEW_OK));
    [eexists; split; [reflexivity|reflexivity]|].
  destruct (frames_until_close d (queries w) fuel) as [n|];
    (eexists; split; [reflexivity|]);
    unfold context_calls; repeat rewrite forallb_app;
    rewrite frames_windowing; reflexivity.
Qed.

(** [renderTriangle] from any world. *)
Lemma renderTriangle_run (w : World) :
  renderTriangle w
  = Ok tt (advance w [GlUseProgram (shaderProgram w);
                      GlBindVertexArray (VAO w);
                      GlDrawArrays GL_TRIANGLES 0 3] 0).
Proof.
  unfold renderTriangle, bind, get_shaderProgram, get_VAO, glUseProgram,
    glBindVertexArray, glDrawArrays, call, advance;
    cbn [calls cout cerr queries shaderProgram VAO].
  rewrite Nat.add_0_r. repeat rewrite <- app_assoc. reflexivity.
Qed.

(** ** The frame loop and the draw (C1) *)

(** C1, refuted as stated: with a healthy driver that closes the window
    after one frame, [main] presents that frame without any draw. *)
Lemma frame_presented_without_draw :
  main (healthy 1) 2 start
  = Ok 0 (advance start
            [GlfwInit; GlfwCreateWindow 800 600 "Empty Window" 0 0;
             GlfwMakeContextCurrent 4096; GlewInit;
             GlfwWindowShouldClose 4096; GlfwSwapBuffers 4096; GlfwPollEvents;
             GlfwWindowShouldClose 4096; GlfwTerminate] 2)
  /\ ~ draws_before_presenting (calls (world_of (main (healthy 1) 2 start))).
Proof.
  split; [reflexivity|].
  intros H.
  destruct (H [GlfwInit; GlfwCreateWindow 800 600 "Empty Window" 0 0;
               GlfwMakeContextCurrent 4096; GlewInit;
               GlfwWindowShouldClose 4096]
              4096
              [GlfwPollEvents; GlfwWindowShouldClose 4096; GlfwTerminate]
              eq_refl) as (pre' & p & v & E).
  apply (f_equal (@rev Call)) in E. rewrite rev_app_distr in E.
  cbn in E. discriminate E.
Qed.

(** C1, amended: [renderTriangle] activates the program held in
    [shaderProgram], then the vertex array held in [VAO], then issues one
    draw of 3 vertices as triangles, and nothing else.  The frame loop of
    [main] does not call it: every turn is the close test, the present and
    the event poll, and no call of [main] is a program activation, a
    vertex-array activation or a draw. *)
Theorem renderTriangle_draws_frame_loop_presents (d : Driver) (fuel : nat) (w : World) :
  (renderTriangle w
   = Ok tt (advance w [GlUseProgram (shaderProgram w);
                       GlBindVertexArray (VAO w);
                       GlDrawArrays GL_TRIANGLES 0 3] 0))
  /\ (forall window, exists n rest,
        calls (world_of (frame_loop d fuel window w))
        = calls w ++ frames window n ++ rest
        /\ (rest = [] \/ rest = [GlfwWindowShouldClose window]))
  /\ (exists l,
        calls (world_of (main d fuel w)) = calls w ++ l
        /\ count is_use_program l = 0%nat
        /\ count is_bind_vertex_array l = 0%nat
        /\ count is_draw l = 0%nat).
Proof.
  split; [apply renderTriangle_run|]. split.
  - intros window. rewrite frame_loop_run.
    destruct (frames_until_close d (queries w) fuel) as [n|].
    + exists n, [GlfwWindowShouldClose window]. split; [reflexivity | now right].
    + exists fuel, []. split; [cbn; now rewrite app_nil_r | now left].
  - destruct (main_calls_windowing d fuel w) as (l & Hl & Hw).
    exists l. split; [exact Hl|].
    repeat split; apply (count_none _ is_windowing); trivial;
      intros [] Hc; try reflexivity; discriminate Hc.
Qed.

(** ** One program, one geometry descriptor (C2) *)

(** C2, refuted as stated: the run of [main] below reaches the frame loop
    and ends normally, and has created neither a program nor a vertex
    array. *)
Lemma frame_loop_reached_without_setup :
  let w := world_of (main (healthy 1) 2 start) in
  main (healthy 1) 2 start = Ok 0 w
  /\ In (GlfwSwapBuffers 4096) (calls w)
  /\ count is_create_program (calls w) = 0%nat
  /\ count is_gen_vertex_arrays (calls w) = 0%nat
  /\ ~ one_program_one_descriptor (calls w).
Proof.
  cbv zeta. split; [reflexivity|]. split; [cbn; tauto|].
  split; [reflexivity|]. split; [reflexivity|].
  intros [H _]. discriminate H.
Qed.

(** C2, amended: no run of [main], whether it reaches the frame loop or
    not, creates a program or a vertex array or issues a draw call, for it
    never calls the setup.  Every execution of [renderTriangleSetup] runs to
    its end, creates exactly one program and one vertex array, leaves their
    names in [shaderProgram] and [VAO], deletes nothing but the two shader
    stages, and issues no draw call. *)
Theorem setup_creates_one_each_main_none (d : Driver) (fuel : nat) (w : World) :
  (exists l,
     calls (world_of (main d fuel w)) = calls w ++ l
     /\ count is_create_program l = 0%nat
     /\ count is_gen_vertex_arrays l = 0%nat
     /\ count is_draw l = 0%nat)
  /\ (exists w' l,
        renderTriangleSetup d w = Ok tt w'
        /\ calls w' = calls w ++ l
        /\ filter is_create_program l = [GlCreateProgram]
        /\ filter is_gen_vertex_arrays l = [GlGenVertexArrays 1]
        /\ shaderProgram w' = glCreateProgram_name d
        /\ VAO w' = glGenVertexArrays_name d
        /\ filter is_delete l
           = [GlDeleteShader (glCreateShader_name d GL_VERTEX_SHADER);
              GlDeleteShader (glCreateShader_name d GL_FRAGMENT_SHADER)]
        /\ count is_draw l = 0%nat).
Proof.
  split.
  - destruct (main_calls_windowing d fuel w) as (l & Hl & Hw).
    exists l. split; [exact Hl|].
    repeat split; apply (count_none _ is_windowing); trivial;
      intros [] Hc; try reflexivity; discriminate Hc.
  - eexists. exists (setup_calls d).
    split; [apply renderTriangleSetup_run|]. split; [reflexivity|].
    unfold setup_calls, when_failed.
    by_checks d;
      repeat split; reflexivity.
Qed.

(** ** Exit codes (C3) *)

(** C3: [main] returns [-1] on each of the three setup failures, for every
    bound on the loop, having called [glfwTerminate] last when (and only
    when) [glfwInit] had succeeded, and having called no library function
    twice.  It returns [0] exactly when the setup succeeded and the frame
    loop was left through a non-zero answer of the close query; once that
    answer arrives after [n] frames the run ends with exit code [0], and
    while it does not arrive the process does not exit. *)
Theorem main_exit_code (d : Driver) :
  (glfwInit_ret d = 0 ->
   forall fuel, main d fuel start = Ok (-1) (advance start [GlfwInit] 0))
  /\ (glfwInit_ret d <> 0 -> glfwCreateWindow_ret d = NULL ->
      forall fuel,
        main d fuel start
        = Ok (-1) (advance start
                     [GlfwInit; GlfwCreateWindow 800 600 "Empty Window" NULL NULL;
                      GlfwTerminate] 0))
  /\ (glfwInit_ret d <> 0 -> glfwCreateWindow_ret d <> NULL ->
      glewInit_ret d <> GLEW_OK ->
      forall fuel,
        main d fuel start
        = Ok (-1) (advance start
                     [GlfwInit; GlfwCreateWindow 800 600 "Empty Window" NULL NULL;
                      GlfwMakeContextCurrent (glfwCreateWindow_ret d); GlewInit;
                      GlfwTerminate] 0))
  /\ (forall fuel code w,
        main d fuel start = Ok code w ->
        (code = 0 \/ code = -1)
        /\ (code = 0 <-> setup_ok d /\ exists n, (n < fuel)%nat /\ closes_after d n))
  /\ (setup_ok d -> forall n, closes_after d n ->
      forall fuel, (n < fuel)%nat ->
        main d fuel start
        = Ok 0 (advance start
                  (context_calls (glfwCreateWindow_ret d)
                   ++ frames (glfwCreateWindow_ret d) n
                   ++ [GlfwWindowShouldClose (glfwCreateWindow_ret d);
                       GlfwTerminate]) (S n)))
  /\ (setup_ok d -> (forall i, glfwWindowShouldClose_ret d i = 0) ->
      forall fuel, exists w, main d fuel start = Stop OutOfFuel w).
Proof.
  split; [|split; [|split; [|split; [|split]]]].
  - intros H fuel. rewrite main_run. by_setup d; easy.
  - intros H1 H2 fuel. rewrite main_run. by_setup d; easy.
  - intros H1 H2 H3 fuel. rewrite main_run. by_setup d; easy.
  - intros fuel code w H. rewrite main_run in H.
    change (queries start) with 0%nat in H. unfold setup_ok.
    by_setup d;
      try (injection H; intros _ <-; split; [now right|];
           split; [discriminate | tauto]).
    destruct (frames_until_close d 0 fuel) as [k|] eqn:F; [|discriminate H].
    injection H; intros _ <-. split; [now left|]. split; [|reflexivity].
    intros _. split; [tauto|]. exists k. now apply first_close_from_start.
  - intros Hok n Hn fuel Hf. rewrite main_after_setup by exact Hok.
    change (queries start) with 0%nat.
    now rewrite (proj2 (first_close_from_start d fuel n) (conj Hf Hn)).
  - intros Hok Hz fuel. rewrite main_after_setup by exact Hok.
    change (queries start) with 0%nat.
    destruct (frames_until_close d 0 fuel) as [k|] eqn:F;
      [|eexists; reflexivity].
    apply first_close_from_start in F. destruct F as (_ & _ & Hnz).
    now rewrite Hz in Hnz.
Qed.

(** ** Diagnostics (C4 to C7) *)

Lemma contains_head (t post : string) : CStr.contains (t ++ post) t.
Proof. now exists EmptyString, post. Qed.

Lemma contains_self (t : string) : CStr.contains t t.
Proof. exists EmptyString, EmptyString. now rewrite string_app_nil_r. Qed.

Lemma contains_app_l (a b t : string) :
  CStr.contains a t -> CStr.contains (a ++ b) t.
Proof.
  intros (pre & post & ->). exists pre, (post ++ b)%string.
  now rewrite !string_app_assoc.
Qed.

Lemma contains_app_r (a b t : string) :
  CStr.contains b t -> CStr.contains (a ++ b) t.
Proof.
  intros (pre & post & ->). exists (a ++ pre)%string, post.
  now rewrite !string_app_assoc.
Qed.

Lemma contains_empty (t : string) :
  t <> EmptyString -> ~ CStr.contains EmptyString t.
Proof.
  intros Ht (pre & post & E).
  destruct pre; [destruct t; [contradiction | discriminate E] | discriminate E].
Qed.

(** C4, refuted as stated: when the driver rejects the vertex shader the
    block is on the standard output, and the standard error stream is
    empty. *)
Lemma vertex_diagnostic_on_stdout :
  let w := world_of (renderTriangleSetup vertex_rejected start) in
  compile_status vertex_rejected (glCreateShader_name vertex_rejected GL_VERTEX_SHADER) = 0
  /\ cout w = ("ERROR::SHADER::VERTEX::COMPILATION_FAILED" ++ nl
               ++ "0:5(1): error: syntax error" ++ nl)%string
  /\ cerr w = EmptyString
  /\ ~ CStr.contains (cerr w) "ERROR::SHADER::VERTEX::COMPILATION_FAILED".
Proof.
  cbv zeta. split; [reflexivity|]. split; [vm_compute; reflexivity|].
  split; [vm_compute; reflexivity|].
  replace (cerr (world_of (renderTriangleSetup vertex_rejected start)))
    with EmptyString by (vm_compute; reflexivity).
  apply contains_empty. discriminate.
Qed.

(** C4, amended: the setup writes nothing to the standard error stream;
    the block of every failed compilation and of a failed link is part of
    what it writes to the standard output. *)
Theorem diagnostics_go_to_stdout (d : Driver) (w : World) :
  let vertexShader := glCreateShader_name d GL_VERTEX_SHADER in
  let fragmentShader := glCreateShader_name d GL_FRAGMENT_SHADER in
  let program := glCreateProgram_name d in
  exists w' out,
    renderTriangleSetup d w = Ok tt w'
    /\ cerr w' = cerr w
    /\ cout w' = (cout w ++ out)%string
    /\ (compile_status d vertexShader = 0 ->
        CStr.contains out
          (block "ERROR::SHADER::VERTEX::COMPILATION_FAILED"
                 (shader_info_log d vertexShader)))
    /\ (compile_status d fragmentShader = 0 ->
        CStr.contains out
          (block "ERROR::SHADER::FRAGMENT::COMPILATION_FAILED"
                 (shader_info_log d fragmentShader)))
    /\ (link_status d program = 0 ->
        CStr.contains out
          (block "ERROR::SHADER::PROGRAM::LINKING_FAILED"
                 (program_info_log d program))).
Proof.
  cbv zeta. eexists. exists (setup_cout d).
  split; [apply renderTriangleSetup_run|].
  split; [reflexivity|]. split; [reflexivity|].
  unfold setup_cout, block_if_failed, failed.
  split; [|split]; intros ->; cbn [Z.eqb].
  - apply contains_app_l, contains_self.
  - apply contains_app_r, contains_app_l, contains_self.
  - do 2 apply contains_app_r. apply contains_self.
Qed.

(** C5: whatever the three status checks find, the setup returns normally
    from its last line, and apart from the log queries it issues the same
    calls in the same order: the second compilation, both attachments, the
    link, the activation and all that follows take place with the handles
    the driver gave out, the rejected ones included.  A failed check does
    have its log queried and its header printed. *)
Theorem failures_reported_and_ignored (d : Driver) (w : World) :
  let vertexShader := glCreateShader_name d GL_VERTEX_SHADER in
  let fragmentShader := glCreateShader_name d GL_FRAGMENT_SHADER in
  let program := glCreateProgram_name d in
  exists w' l out,
    renderTriangleSetup d w = Ok tt w'
    /\ calls w' = calls w ++ l
    /\ cout w' = (cout w ++ out)%string
    /\ filter (fun c => negb (is_info_log_query c)) l = straight_line d
    /\ (exists pre post,
          straight_line d
          = pre ++ [GlCreateShader GL_FRAGMENT_SHADER;
                    GlShaderSource fragmentShader 1 [fragmentShaderSource];
                    GlCompileShader fragmentShader;
                    GlGetShaderiv fragmentShader GL_COMPILE_STATUS;
                    GlCreateProgram;
                    GlAttachShader program vertexShader;
                    GlAttachShader program fragmentShader;
                    GlLinkProgram program;
                    GlGetProgramiv program GL_LINK_STATUS;
                    GlUseProgram program] ++ post)
    /\ (compile_status d vertexShader = 0 ->
        In (GlGetShaderInfoLog vertexShader 512) l
        /\ CStr.contains out "ERROR::SHADER::VERTEX::COMPILATION_FAILED")
    /\ (compile_status d fragmentShader = 0 ->
        In (GlGetShaderInfoLog fragmentShader 512) l
        /\ CStr.contains out "ERROR::SHADER::FRAGMENT::COMPILATION_FAILED")
    /\ (link_status d program = 0 ->
        In (GlGetProgramInfoLog program 512) l
        /\ CStr.contains out "ERROR::SHADER::PROGRAM::LINKING_FAILED").
Proof.
  cbv zeta. eexists. exists (setup_calls d), (setup_cout d).
  split; [apply renderTriangleSetup_run|].
  split; [reflexivity|]. split; [reflexivity|].
  split.
  { unfold setup_calls, straight_line, when_failed.
    by_checks d;
      reflexivity. }
  split.
  { exists (upload_calls d ++ vertex_calls d).
    exists ([GlDeleteShader (glCreateShader_name d GL_VERTEX_SHADER);
             GlDeleteShader (glCreateShader_name d GL_FRAGMENT_SHADER)]
            ++ layout_calls d).
    reflexivity. }
  unfold setup_calls, setup_cout, when_failed, block_if_failed, block, failed.
  split; [|split]; intros ->; cbn [Z.eqb]; split.
  - apply in_or_app; right. apply in_or_app; right. now left.
  - apply contains_app_l, contains_head.
  - do 4 (apply in_or_app; right). now left.
  - apply contains_app_r, contains_app_l, contains_head.
  - do 6 (apply in_or_app; right). now left.
  - do 2 apply contains_app_r. apply contains_head.
Qed.

Lemma forallb_firstn {A} (p : A -> bool) (n : nat) (l : list A) :
  forallb p l = true -> forallb p (firstn n l) = true.
Proof.
  revert n. induction l as [|x l IH]; intros [|n]; cbn; trivial.
  intros H. apply andb_true_iff in H as [-> Hl]. now apply IH.
Qed.

Lemma string_of_list_length (l : list ascii) :
  String.length (string_of_list_ascii l) = List.length l.
Proof. induction l as [|c l IH]; cbn; [reflexivity | now rewrite IH]. Qed.

(** A log that fits is printed whole. *)
Lemma log_text_short (log : string) :
  (String.length log <= 511)%nat -> nul_free log = true -> log_text log = log.
Proof.
  intros Hlen Hclean. unfold log_text.
  rewrite firstn_all2 by (rewrite list_ascii_length; lia).
  rewrite until_nul_clean by exact Hclean.
  apply string_of_list_ascii_of_string.
Qed.

(** A longer log is cut after its first 511 characters. *)
Lemma log_text_long (log : string) :
  (511 <= String.length log)%nat -> nul_free log = true ->
  log_text log = string_of_list_ascii (firstn 511 (list_ascii_of_string log))
  /\ String.length (log_text log) = 511%nat.
Proof.
  intros Hlen Hclean. unfold log_text.
  rewrite until_nul_clean by (apply forallb_firstn; exact Hclean).
  split; [reflexivity|].
  rewrite string_of_list_length, length_firstn, list_ascii_length. lia.
Qed.

Lemma until_nul_prefix (n : nat) (s : string) :
  prefix (CStr.until_nul (firstn n (list_ascii_of_string s))) s = true.
Proof.
  revert n. induction s as [|c s IH]; intros [|n]; cbn; trivial.
  destruct (CStr.is_nul c); cbn; [reflexivity|].
  destruct (ascii_dec c c) as [_|N]; [apply IH | now contradiction N].
Qed.

(** C6: the standard output of the setup is one block for each failed
    check, in the order vertex, fragment, link, and nothing else; a block
    is the header [ERROR::SHADER::<STAGE>::<REASON>], a newline, the log as
    it came through the 512-byte array (the driver's log itself when that
    has at most 511 characters) and the newline of [std::endl]; the vertex
    block contains [VERTEX] and [COMPILATION_FAILED]; when all three checks
    succeed nothing is printed. *)
Theorem one_block_per_failure (d : Driver) (w : World) :
  let vertexShader := glCreateShader_name d GL_VERTEX_SHADER in
  let fragmentShader := glCreateShader_name d GL_FRAGMENT_SHADER in
  let program := glCreateProgram_name d in
  exists w',
    renderTriangleSetup d w = Ok tt w'
    /\ cout w'
       = (cout w
          ++ (if (compile_status d vertexShader =? 0)%Z
              then spec_block "VERTEX" "COMPILATION_FAILED"
                     (log_text (shader_info_log d vertexShader))
              else "")
          ++ (if (compile_status d fragmentShader =? 0)%Z
              then spec_block "FRAGMENT" "COMPILATION_FAILED"
                     (log_text (shader_info_log d fragmentShader))
              else "")
          ++ (if (link_status d program =? 0)%Z
              then spec_block "PROGRAM" "LINKING_FAILED"
                     (log_text (program_info_log d program))
              else ""))%string
    /\ (forall log,
          CStr.contains (spec_block "VERTEX" "COMPILATION_FAILED" log) "VERTEX"
          /\ CStr.contains (spec_block "VERTEX" "COMPILATION_FAILED" log)
               "COMPILATION_FAILED")
    /\ (forall log, (String.length log <= 511)%nat -> nul_free log = true ->
                    log_text log = log)
    /\ (compile_status d vertexShader <> 0 ->
        compile_status d fragmentShader <> 0 ->
        link_status d program <> 0 ->
        cout w' = cout w).
Proof.
  cbv zeta. eexists. split; [apply renderTriangleSetup_run|].
  split; [reflexivity|]. split; [|split].
  - intros log. split.
    + exists "ERROR::SHADER::"%string,
        ("::COMPILATION_FAILED" ++ nl ++ log ++ nl)%string. reflexivity.
    + exists "ERROR::SHADER::VERTEX::"%string, (nl ++ log ++ nl)%string.
      reflexivity.
  - apply log_text_short.
  - intros Hv Hf Hl.
    cbn [cout with_globals extend].
    unfold setup_cout, block_if_failed, failed.
    destruct (Z.eqb_spec (compile_status d (glCreateShader_name d GL_VERTEX_SHADER)) 0);
      [contradiction|].
    destruct (Z.eqb_spec (compile_status d (glCreateShader_name d GL_FRAGMENT_SHADER)) 0);
      [contradiction|].
    destruct (Z.eqb_spec (link_status d (glCreateProgram_name d)) 0);
      [contradiction|].
    cbn [append]. apply string_app_nil_r.
Qed.

(** A log of 511 characters or more fills the array: its first 511
    characters and the terminator are the 512 bytes. *)
Lemma info_log_512_full (d : Driver) (log : string) :
  (511 <= String.length log)%nat ->
  write_info_log log 512 (char_array d 512)
  = Some (firstn 511 (list_ascii_of_string log) ++ [CStr.NUL]).
Proof.
  intros Hlong.
  rewrite write_info_log_fits by (rewrite ?char_array_length; lia).
  change (Z.to_nat (512 - 1)) with 511%nat.
  rewrite skipn_all2; [reflexivity|].
  rewrite char_array_length, length_firstn, list_ascii_length. lia.
Qed.

(** C7: the copy of a driver log into [char infoLog[512]] with
    [maxLength = 512] performs no store outside the array, whatever the
    log and whatever the array held before; the array then holds a
    NUL-terminated string, so printing it reads inside the array; the
    printed text is shorter than 512 bytes and is a prefix of the driver's
    log; a log of more than 512 characters is cut so that its first 511
    characters and the terminator are the 512 bytes of the array.  This
    captured string is what each of the three reports prints between its
    header line and the final newline, and the setup never faults. *)
Theorem info_log_within_512_bytes (d : Driver) (log : string) :
  (exists infoLog,
     write_info_log log 512 (char_array d 512) = Some infoLog
     /\ List.length infoLog = 512%nat
     /\ CStr.read infoLog = Some (log_text log))
  /\ (String.length (log_text log) < 512)%nat
  /\ prefix (log_text log) log = true
  /\ ((512 < String.length log)%nat ->
      write_info_log log 512 (char_array d 512)
      = Some (firstn 511 (list_ascii_of_string log) ++ [CStr.NUL]))
  /\ ((512 < String.length log)%nat -> nul_free log = true ->
      log_text log = string_of_list_ascii (firstn 511 (list_ascii_of_string log)))
  /\ (forall header shader w,
        shader_info_log d shader = log ->
        report d header (glGetShaderInfoLog d shader) w
        = Ok tt (extend w [GlGetShaderInfoLog shader 512]
                   (header ++ nl ++ log_text log ++ nl)))
  /\ (forall header program w,
        program_info_log d program = log ->
        report d header (glGetProgramInfoLog d program) w
        = Ok tt (extend w [GlGetProgramInfoLog program 512]
                   (header ++ nl ++ log_text log ++ nl)))
  /\ (forall w, exists w', renderTriangleSetup d w = Ok tt w').
Proof.
  split; [apply info_log_512|].
  split; [pose proof (log_text_length log); lia|].
  split; [apply until_nul_prefix|].
  split; [intros Hlong; apply info_log_512_full; lia|].
  split; [|split; [|split]].
  - intros Hlong Hclean.
    destruct (log_text_long log) as [E _]; [lia | exact Hclean | exact E].
  - intros header shader w <-. apply report_shader_run.
  - intros header program w <-. apply report_program_run.
  - intros w. eexists. apply renderTriangleSetup_run.
Qed.

(** ** Geometry, layout, draw and cleanup (C8 to C10) *)

(** C8: each of the uploads of the setup sends the same 36 bytes, the nine
    floats of [vertices], to [GL_ARRAY_BUFFER] with [GL_STATIC_DRAW]; the
    array is a constant of the program, the same for every driver and every
    run; its values are binary32 numbers worth -1/2, -1/2, 0, 1/2, -1/2, 0,
    0, 1/2, 0, read by the attribute layout as the three vertices
    (-0.5,-0.5,0), (0.5,-0.5,0), (0,0.5,0), each component between -1 and
    1; [renderTriangle] uploads nothing. *)
Theorem uploaded_triangle (d : Driver) (w : World) :
  exists w' l,
    renderTriangleSetup d w = Ok tt w'
    /\ calls w' = calls w ++ l
    /\ filter is_buffer_data l
       = [GlBufferData GL_ARRAY_BUFFER 36 vertices GL_STATIC_DRAW;
          GlBufferData GL_ARRAY_BUFFER 36 vertices GL_STATIC_DRAW]
    /\ List.length vertices = 9%nat
    /\ 36 = 3 * 3 * F32.sizeof_float
    /\ forallb (valid_binary F32.prec F32.emax) vertices = true
    /\ map F32.value vertices
       = map Some [ -1#2; -1#2; 0; 1#2; -1#2; 0; 0; 1#2; 0 ]%Q
    /\ map F32.value (fetch vertices 3 12 0 0) = map Some [ -1#2; -1#2; 0 ]%Q
    /\ map F32.value (fetch vertices 3 12 0 1) = map Some [ 1#2; -1#2; 0 ]%Q
    /\ map F32.value (fetch vertices 3 12 0 2) = map Some [ 0; 1#2; 0 ]%Q
    /\ forallb in_ndc vertices = true
    /\ (forall w0, count is_buffer_data (calls (world_of (renderTriangle w0)))
                   = count is_buffer_data (calls w0)).
Proof.
  eexists. exists (setup_calls d).
  split; [apply renderTriangleSetup_run|]. split; [reflexivity|].
  split.
  { unfold setup_calls, when_failed.
    by_checks d;
      reflexivity. }
  do 8 (split; [vm_compute; reflexivity|]).
  intros w0. rewrite renderTriangle_run. cbn [world_of advance calls].
  rewrite count_app. cbn. lia.
Qed.

(** C9: both attribute-pointer calls of the setup are
    [glVertexAttribPointer(0, 3, GL_FLOAT, GL_FALSE, 3 * sizeof(float), 0)];
    the second is issued, and slot 0 enabled, while the vertex array made
    by the setup and the vertex buffer are bound; and [renderTriangle]
    after the setup activates the program and that vertex array and issues
    the single call [glDrawArrays(GL_TRIANGLES, 0, 3)]. *)
Theorem layout_and_draw (d : Driver) (w : World) :
  let VBO := glGenBuffers_name d in
  let program := glCreateProgram_name d in
  let vao := glGenVertexArrays_name d in
  exists w' l pre,
    renderTriangleSetup d w = Ok tt w'
    /\ calls w' = calls w ++ l
    /\ filter is_attrib_pointer l
       = [GlVertexAttribPointer 0 3 GL_FLOAT GL_FALSE (3 * F32.sizeof_float) 0;
          GlVertexAttribPointer 0 3 GL_FLOAT GL_FALSE (3 * F32.sizeof_float) 0]
    /\ 3 * F32.sizeof_float = 12
    /\ l = pre ++ [GlGenVertexArrays 1;
                   GlBindVertexArray vao;
                   GlBindBuffer GL_ARRAY_BUFFER VBO;
                   GlBufferData GL_ARRAY_BUFFER 36 vertices GL_STATIC_DRAW;
                   GlVertexAttribPointer 0 3 GL_FLOAT GL_FALSE 12 0;
                   GlEnableVertexAttribArray 0;
                   GlBindBuffer GL_ARRAY_BUFFER 0;
                   GlBindVertexArray 0]
    /\ renderTriangle w'
       = Ok tt (advance w' [GlUseProgram program;
                           GlBindVertexArray vao;
                           GlDrawArrays GL_TRIANGLES 0 3] 0).
Proof.
  cbv zeta. eexists. exists (setup_calls d).
  exists (upload_calls d
          ++ vertex_calls d
          ++ when_failed (compile_status d (glCreateShader_name d GL_VERTEX_SHADER))
               [GlGetShaderInfoLog (glCreateShader_name d GL_VERTEX_SHADER) 512]
          ++ fragment_calls d
          ++ when_failed (compile_status d (glCreateShader_name d GL_FRAGMENT_SHADER))
               [GlGetShaderInfoLog (glCreateShader_name d GL_FRAGMENT_SHADER) 512]
          ++ link_calls d
          ++ when_failed (link_status d (glCreateProgram_name d))
               [GlGetProgramInfoLog (glCreateProgram_name d) 512]
          ++ use_and_delete_calls d
          ++ [GlVertexAttribPointer 0 3 GL_FLOAT false 12 0;
              GlEnableVertexAttribArray 0]).
  split; [apply renderTriangleSetup_run|]. split; [reflexivity|].
  split.
  { unfold setup_calls, when_failed.
    by_checks d;
      reflexivity. }
  split; [reflexivity|]. split.
  - unfold setup_calls. repeat rewrite <- app_assoc. reflexivity.
  - apply renderTriangle_run.
Qed.

(** C10: in every execution of the setup, whatever the three checks find,
    the calls are: a first part without any deletion, then the activation
    of the program, the deletion of the vertex stage and the deletion of
    the fragment stage, then a last part with no shader or program call at
    all.  The two deletions close the shader part of the setup, and each
    stage is deleted once. *)
Theorem stages_deleted_after_use (d : Driver) (w : World) :
  let vertexShader := glCreateShader_name d GL_VERTEX_SHADER in
  let fragmentShader := glCreateShader_name d GL_FRAGMENT_SHADER in
  let program := glCreateProgram_name d in
  exists w' before after,
    renderTriangleSetup d w = Ok tt w'
    /\ calls w'
       = calls w ++ before
         ++ [GlUseProgram program;
             GlDeleteShader vertexShader;
             GlDeleteShader fragmentShader]
         ++ after
    /\ count is_delete before = 0%nat
    /\ In (GlLinkProgram program) before
    /\ count is_shader_pipeline after = 0%nat.
Proof.
  cbv zeta. eexists.
  exists (upload_calls d
          ++ vertex_calls d
          ++ when_failed (compile_status d (glCreateShader_name d GL_VERTEX_SHADER))
               [GlGetShaderInfoLog (glCreateShader_name d GL_VERTEX_SHADER) 512]
          ++ fragment_calls d
          ++ when_failed (compile_status d (glCreateShader_name d GL_FRAGMENT_SHADER))
               [GlGetShaderInfoLog (glCreateShader_name d GL_FRAGMENT_SHADER) 512]
          ++ link_calls d
          ++ when_failed (link_status d (glCreateProgram_name d))
               [GlGetProgramInfoLog (glCreateProgram_name d) 512]).
  exists (layout_calls d).
  split; [apply renderTriangleSetup_run|].
  split.
  { cbn [calls with_globals extend]. unfold setup_calls.
    repeat rewrite <- app_assoc. reflexivity. }
  unfold when_failed.
  by_checks d;
    (split; [reflexivity|]); (split; [|reflexivity]);
    cbn; tauto.
Qed.


(** * Further properties of [main.cpp] and [triangle.cpp] *)

(** ** The window handle, the frames and the bound of [main] *)


Lemma frames_on_window (window : Z) (n : nat) :
  forallb (on_window window) (frames window n) = true.
Proof.
  induction n as [|n IH]; [reflexivity|].
  rewrite frames_succ, forallb_app, IH.
  unfold frame, on_window. cbn. now rewrite Z.eqb_refl.
Qed.

Lemma frames_count (window : Z) (n : nat) :
  count is_close_test (frames window n) = n
  /\ count is_present (frames window n) = n
  /\ count is_poll (frames window n) = n
  /\ count is_terminate (frames window n) = 0%nat.
Proof.
  induction n as [|n (IH1 & IH2 & IH3 & IH4)]; [repeat split|].
  rewrite frames_succ, !count_app, IH1, IH2, IH3, IH4. repeat split.
Qed.

(** X1: whatever the libraries answer, every GLFW call of [main] that takes
    a window is given the pointer [glfwCreateWindow] returned, and never
    [NULL]: the calls after the creation are guarded by the [!window]
    test. *)
Theorem main_window_never_null (d : Driver) (fuel : nat) (w : World) :
  exists l,
    calls (world_of (main d fuel w)) = calls w ++ l
    /\ forall c window,
         In c l -> window_of c = Some window ->
         window = glfwCreateWindow_ret d /\ window <> NULL.
Proof.
  assert (G : forall l,
             forallb (on_window (glfwCreateWindow_ret d)) l = true ->
             forall c window,
               In c l -> window_of c = Some window ->
               window = glfwCreateWindow_ret d).
  { intros l Hl c window Hc Hw.
    rewrite forallb_forall in Hl. specialize (Hl c Hc).
    unfold on_window in Hl. rewrite Hw in Hl. now apply Z.eqb_eq. }
  rewrite main_run. by_setup d.
  - eexists; split; [reflexivity|]. intros c window [<-|[]]; discriminate.
  - eexists; split; [reflexivity|].
    intros c window [<-|[<-|[<-|[]]]]; discriminate.
  - destruct (frames_until_close d (queries w) fuel) as [k|];
      (eexists; split; [reflexivity|]); intros c window Hc Hw;
      (assert (E : window = glfwCreateWindow_ret d);
       [ refine (G _ _ c window Hc Hw);
         unfold context_calls; rewrite !forallb_app, frames_on_window;
         cbn; now rewrite ?Z.eqb_refl
       | split; [exact E | now rewrite E] ]).
  - eexists; split; [reflexivity|]. intros c window Hc Hw.
    assert (E : window = glfwCreateWindow_ret d).
    { refine (G _ _ c window Hc Hw). cbn. now rewrite Z.eqb_refl. }
    split; [exact E | now rewrite E].
Qed.

(** X2: when the setup of [main] succeeds and the close query is answered
    non-zero for the first time at its test number [n] (from 0), the run
    presents exactly [n] frames, polls events [n] times, tests the close
    flag [n + 1] times and calls [glfwTerminate] once; with [n = 0] no
    frame is presented at all. *)
Theorem main_presents_n_frames (d : Driver) (n fuel : nat) :
  setup_ok d -> closes_after d n -> (n < fuel)%nat ->
  exists w,
    main d fuel start = Ok 0 w
    /\ count is_present (calls w) = n
    /\ count is_poll (calls w) = n
    /\ count is_close_test (calls w) = S n
    /\ count is_terminate (calls w) = 1%nat
    /\ queries w = S n.
Proof.
  intros Hok Hn Hf. eexists. split.
  - rewrite main_after_setup by exact Hok.
    change (queries start) with 0%nat.
    rewrite (proj2 (first_close_from_start d fuel n) (conj Hf Hn)). reflexivity.
  - destruct (frames_count (glfwCreateWindow_ret d) n) as (C1 & C2 & C3 & C4).
    cbn [calls advance start app queries Nat.add].
    unfold context_calls. rewrite !count_app, C1, C2, C3, C4. cbn.
    repeat split; lia.
Qed.

Lemma main_presents_n_frames_witness :
  setup_ok (healthy 2) /\ closes_after (healthy 2) 2 /\ (2 < 3)%nat
  /\ exists w,
       main (healthy 2) 3 start = Ok 0 w
       /\ count is_present (calls w) = 2%nat
       /\ count is_poll (calls w) = 2%nat
       /\ count is_close_test (calls w) = 3%nat
       /\ count is_terminate (calls w) = 1%nat
       /\ queries w = 3%nat.
Proof.
  assert (Hok : setup_ok (healthy 2)).
  { unfold setup_ok; cbn. repeat split; discriminate. }
  assert (Hn : closes_after (healthy 2) 2).
  { split; [|discriminate]. intros [|[|i]] Hi; [reflexivity | reflexivity | lia]. }
  split; [exact Hok|]. split; [exact Hn|]. split; [lia|].
  apply (main_presents_n_frames (healthy 2) 2 3 Hok Hn). lia.
Defined.




(** ** The diagnostics of the setup *)

Lemma string_app_same (a b : string) : (a ++ b)%string = a -> b = EmptyString.
Proof.
  induction a as [|c a IH]; cbn; [trivial|]. intros [= H]. now apply IH.
Qed.



Lemma string_app_inv_head (a b c : string) :
  (a ++ b)%string = (a ++ c)%string -> b = c.
Proof.
  induction a as [|x a IH]; cbn; [trivial|]. intros [= H]. now apply IH.
Qed.

Lemma string_app_inv_nl (a b : string) :
  (a ++ nl)%string = (b ++ nl)%string -> a = b.
Proof.
  revert b. induction a as [|x a IH]; intros [|y b]; cbn; trivial.
  - intros [= _ H]. destruct b; discriminate H.
  - intros [= _ H]. destruct a; discriminate H.
  - intros [= -> H]. f_equal. now apply IH.
Qed.

(** X5: a failed check prints the driver's log unchanged exactly when the
    log has at most 511 characters: with 512 or more, the text between the
    header line and the final newline is no longer the log.  This holds for
    the shader reports and for the program report alike. *)
Theorem report_prints_log_iff_it_fits
  (d : Driver) (header : string) (object : GLuint) (w : World) :
  nul_free (shader_info_log d object) = true ->
  nul_free (program_info_log d object) = true ->
  (report d header (glGetShaderInfoLog d object) w
   = Ok tt (extend w [GlGetShaderInfoLog object 512]
              (header ++ nl ++ shader_info_log d object ++ nl))
   <-> (String.length (shader_info_log d object) <= 511)%nat)
  /\ (report d header (glGetProgramInfoLog d object) w
      = Ok tt (extend w [GlGetProgramInfoLog object 512]
                 (header ++ nl ++ program_info_log d object ++ nl))
      <-> (String.length (program_info_log d object) <= 511)%nat).
Proof.
  intros Hs Hp.
  assert (G : forall cs log,
             Ok tt (extend w cs (header ++ nl ++ log_text log ++ nl))
             = Ok tt (extend w cs (header ++ nl ++ log ++ nl)) ->
             (String.length log <= 511)%nat).
  { intros cs log H.
    apply (f_equal (fun r => cout (world_of r))) in H.
    cbn [world_of extend cout] in H.
    do 3 apply string_app_inv_head in H. apply string_app_inv_nl in H.
    rewrite <- H. apply log_text_length. }
  split.
  - rewrite report_shader_run. split; [apply G|].
    intros H. now rewrite log_text_short.
  - rewrite report_program_run. split; [apply G|].
    intros H. now rewrite log_text_short.
Qed.

Lemma report_prints_log_iff_it_fits_witness :
  nul_free (shader_info_log vertex_rejected 1) = true
  /\ nul_free (program_info_log vertex_rejected 1) = true
  /\ (report vertex_rejected "H" (glGetShaderInfoLog vertex_rejected 1) start
      = Ok tt (extend start [GlGetShaderInfoLog 1 512]
                 ("H" ++ nl ++ shader_info_log vertex_rejected 1 ++ nl))
      <-> (String.length (shader_info_log vertex_rejected 1%Z) <= 511)%nat).
Proof.
  split; [reflexivity|]. split; [reflexivity|].
  exact (proj1 (report_prints_log_iff_it_fits vertex_rejected "H"%string 1%Z start
                  eq_refl eq_refl)).
Defined.

(** X6: the setup is silent exactly when it succeeds: it leaves the
    standard output as it found it if and only if both compile statuses and
    the link status are non-zero. *)
Theorem setup_silent_iff_success (d : Driver) (w : World) :
  cout (world_of (renderTriangleSetup d w)) = cout w
  <-> compile_status d (glCreateShader_name d GL_VERTEX_SHADER) <> 0
      /\ compile_status d (glCreateShader_name d GL_FRAGMENT_SHADER) <> 0
      /\ link_status d (glCreateProgram_name d) <> 0.
Proof.
  rewrite renderTriangleSetup_run. cbn [world_of with_globals extend cout].
  unfold setup_cout, block_if_failed, failed, block.
  destruct (Z.eqb_spec (compile_status d (glCreateShader_name d GL_VERTEX_SHADER)) 0)
    as [Ev|Ev].
  { split; [|tauto]. intros H. apply string_app_same in H.
    cbn [append] in H. discriminate H. }
  destruct (Z.eqb_spec (compile_status d (glCreateShader_name d GL_FRAGMENT_SHADER)) 0)
    as [Ef|Ef].
  { split; [|tauto]. intros H. apply string_app_same in H.
    cbn [append] in H. discriminate H. }
  destruct (Z.eqb_spec (link_status d (glCreateProgram_name d)) 0) as [El|El].
  { split; [|tauto]. intros H. apply string_app_same in H.
    cbn [append] in H. discriminate H. }
  cbn [append]. rewrite string_app_nil_r. tauto.
Qed.

(** X7: an information log is fetched for the checks that failed and for
    no other: the log queries of a run of the setup are, in this order, the
    vertex shader's if its compile status is zero, the fragment shader's if
    its compile status is zero, and the program's if its link status is
    zero, each with [maxLength = 512]. *)
Theorem logs_fetched_only_on_failure (d : Driver) (w : World) :
  let vertexShader := glCreateShader_name d GL_VERTEX_SHADER in
  let fragmentShader := glCreateShader_name d GL_FRAGMENT_SHADER in
  let program := glCreateProgram_name d in
  exists w' l,
    renderTriangleSetup d w = Ok tt w'
    /\ calls w' = calls w ++ l
    /\ filter is_info_log_query l
       = (if compile_status d vertexShader =? 0
          then [GlGetShaderInfoLog vertexShader 512] else [])
         ++ (if compile_status d fragmentShader =? 0
             then [GlGetShaderInfoLog fragmentShader 512] else [])
         ++ (if link_status d program =? 0
             then [GlGetProgramInfoLog program 512] else []).
Proof.
  cbv zeta. eexists. exists (setup_calls d).
  split; [apply renderTriangleSetup_run|]. split; [reflexivity|].
  unfold setup_calls, when_failed, failed.
  destruct (compile_status d (glCreateShader_name d GL_VERTEX_SHADER) =? 0);
    destruct (compile_status d (glCreateShader_name d GL_FRAGMENT_SHADER) =? 0);
    destruct (link_status d (glCreateProgram_name d) =? 0);
    reflexivity.
Qed.

(** ** The bindings around the calls of [triangle.cpp] *)

(** X8: in every run of the setup, whatever was bound before, both uploads
    go to the buffer the setup generated, and both attribute layouts read
    from it; but the first layout (and the first enabling of slot 0) is
    issued before the vertex array exists, under the vertex array the
    caller had bound, and only the second one under the setup's own. *)
Theorem setup_bindings_at_uploads_and_layouts (d : Driver) (w : World) (b : Bindings) :
  let VBO := glGenBuffers_name d in
  let vao := glGenVertexArrays_name d in
  exists w' l,
    renderTriangleSetup d w = Ok tt w'
    /\ calls w' = calls w ++ l
    /\ map bound_buffer (bindings_at is_buffer_data b l) = [VBO; VBO]
    /\ map (fun x => (bound_array x, bound_buffer x))
           (bindings_at is_attrib_pointer b l)
       = [(bound_array b, VBO); (vao, VBO)]
    /\ map bound_array (bindings_at is_enable_attrib b l) = [bound_array b; vao].
Proof.
  cbv zeta. eexists. exists (setup_calls d).
  split; [apply renderTriangleSetup_run|]. split; [reflexivity|].
  unfold setup_calls, when_failed.
  by_checks d; repeat split; reflexivity.
Qed.






